(** * YouTube MCP server ([server.py]): a shallow embedding

    The server exposes five tools.  Each one receives a request record that
    the schema layer has already built and validated, performs at most one
    call to the transcript collaborator and one HTTP GET through the shared
    helper [_make_api_request], reshapes the JSON answer and wraps whatever
    goes wrong inside its [try] block as [ValueError("API Error: ...")].

    Python values are modelled as the data the interpreter manipulates:
    a [str] is its sequence of code points, a [dict] is an insertion-ordered
    association list, exceptions are values of the type [exn].  Everything
    that lives outside the repository (the HTTP client, the transcript
    collaborator, the process environment, the wording CPython and pydantic
    give to their own exceptions) is a field of the record [World]. *)

From Stdlib Require Import List ZArith NArith Bool Lia String Ascii.
From Stdlib Require Import DecimalString PrimFloat.
Import ListNotations.

Local Open Scope list_scope.
Local Set Warnings "-register-all".

(** ** Python strings *)

(** A Python [str] is a sequence of Unicode code points; [len] is the
    number of code points. *)
Definition pystr := list N.

(** The literals of [server.py] are ASCII: one code point per character. *)
Fixpoint lit (s : string) : pystr :=
  match s with
  | EmptyString => []
  | String c s' => N_of_ascii c :: lit s'
  end.

(** The escape [\n] of the Python literals. *)
Definition nl : pystr := [10%N].

Definition pystr_eqb (a b : pystr) : bool :=
  if list_eq_dec N.eq_dec a b then true else false.

(** [str(n)] for an [int]: decimal digits, a minus sign when negative. *)
Definition str_of_int (z : Z) : pystr :=
  lit (NilEmpty.string_of_int (Z.to_int z)).

(** [sep.join(parts)] on parts already known to be strings. *)
Fixpoint join (sep : pystr) (parts : list pystr) : pystr :=
  match parts with
  | [] => []
  | [p] => p
  | p :: rest => p ++ sep ++ join sep rest
  end.

(** [c.isspace()], the characters [str.strip()] removes: the code points
    CPython classifies as whitespace. *)
Definition isspace (c : N) : bool :=
  ((9 <=? c) && (c <=? 13) || (28 <=? c) && (c <=? 32)
   || (c =? 133) || (c =? 160) || (c =? 5760)
   || (8192 <=? c) && (c <=? 8202)
   || (c =? 8232) || (c =? 8233) || (c =? 8239) || (c =? 8287)
   || (c =? 12288))%N.

Fixpoint lstrip (s : pystr) : pystr :=
  match s with
  | [] => []
  | c :: s' => if isspace c then lstrip s' else s
  end.

Definition rstrip (s : pystr) : pystr := rev (lstrip (rev s)).

(** [s.strip()] *)
Definition strip (s : pystr) : pystr := rstrip (lstrip s).

(** [needle in hay] as a proposition. *)
Definition contains (hay needle : pystr) : Prop :=
  exists pre post, hay = pre ++ needle ++ post.

(** ** Python values *)

(** The values [response.json()] can produce, which are also the values the
    tools build. A [dict] keeps its insertion order; lookup takes the first
    binding of a key. *)
Inductive pyval :=
| PyNone
| PyBool (b : bool)
| PyInt (z : Z)
| PyFloat (f : float)
| PyStr (s : pystr)
| PyList (items : list pyval)
| PyDict (entries : list (pystr * pyval)).

Inductive pytype := TNone | TBool | TInt | TFloat | TStr | TList | TDict.

Definition type_of (v : pyval) : pytype :=
  match v with
  | PyNone => TNone
  | PyBool _ => TBool
  | PyInt _ => TInt
  | PyFloat _ => TFloat
  | PyStr _ => TStr
  | PyList _ => TList
  | PyDict _ => TDict
  end.

(** [bool(v)], the test behind [not v]. *)
Definition truthy (v : pyval) : bool :=
  match v with
  | PyNone => false
  | PyBool b => b
  | PyInt z => negb (z =? 0)%Z
  | PyFloat f => negb (PrimFloat.eqb f 0%float)
  | PyStr s => match s with [] => false | _ => true end
  | PyList l => match l with [] => false | _ => true end
  | PyDict d => match d with [] => false | _ => true end
  end.

Definition dict := list (pystr * pyval).

Fixpoint dict_lookup (k : pystr) (d : dict) : option pyval :=
  match d with
  | [] => None
  | (k', v) :: d' => if pystr_eqb k k' then Some v else dict_lookup k d'
  end.

(** [d[k] = v]: an existing key keeps its place, a new one goes last. *)
Fixpoint dict_set (k : pystr) (v : pyval) (d : dict) : dict :=
  match d with
  | [] => [(k, v)]
  | (k', v') :: d' =>
      if pystr_eqb k k' then (k', v) :: d' else (k', v') :: dict_set k v d'
  end.

(** ** Exceptions *)

(** The exceptions the program can meet.  [ValueError] is the one
    [server.py] raises itself; the next seven are raised by the interpreter
    on ill-shaped data; [ValidationError] is pydantic's, for the record
    [model] with the failing locations (field name, index in a list field)
    and what failed there; [Collaborator] is anything raised by the HTTP
    client, the JSON decoder or the transcript library, carrying its
    [str()]. *)
Inductive exn :=
| ValueError (msg : pystr)
| KeyError (key : pyval)
| IndexError (container : pytype)
| NotSubscriptable (t : pytype)
| BadIndexType (container index : pytype)
| NotIterable (t : pytype)
| NoAttribute (t : pytype) (attr : string)
| JoinItem (position : nat) (t : pytype)
| ValidationError (model : string)
    (errors : list (string * option nat * field_fault))
| Collaborator (msg : pystr)

(** Why a field of a record fails pydantic's checks. *)
with field_fault :=
| ValidatorRaised (e : exn)           (* a [field_validator] raised [e] *)
| NotGreaterEqual (bound : Z)         (* [ge=bound] violated *)
| NotLessEqual (bound : Z)            (* [le=bound] violated *)
| WrongType (expected got : pytype).  (* the value is not of the annotated type *)

(** ** Operations of the interpreter on JSON-shaped values *)

(** [v[k]] with [k] a [str]. *)
Definition getitem_str (v : pyval) (k : pystr) : exn + pyval :=
  match v with
  | PyDict d =>
      match dict_lookup k d with
      | Some x => inr x
      | None => inl (KeyError (PyStr k))
      end
  | PyList _ => inl (BadIndexType TList TStr)
  | PyStr _ => inl (BadIndexType TStr TStr)
  | _ => inl (NotSubscriptable (type_of v))
  end.

(** [v[i]] with [i] a non-negative [int]. The keys of a JSON object are
    strings, so an integer key is never found in a [dict]. *)
Definition getitem_int (v : pyval) (i : nat) : exn + pyval :=
  match v with
  | PyList l =>
      match nth_error l i with
      | Some x => inr x
      | None => inl (IndexError TList)
      end
  | PyStr s =>
      match nth_error s i with
      | Some c => inr (PyStr [c])
      | None => inl (IndexError TStr)
      end
  | PyDict _ => inl (KeyError (PyInt (Z.of_nat i)))
  | _ => inl (NotSubscriptable (type_of v))
  end.

(** [v.get(k, default)]: only a [dict] has the method. *)
Definition dict_get (v : pyval) (k : pystr) (default : pyval) : exn + pyval :=
  match v with
  | PyDict d =>
      match dict_lookup k d with
      | Some x => inr x
      | None => inr default
      end
  | _ => inl (NoAttribute (type_of v) "get")
  end.

(** The items [for item in v] visits: the elements of a list, the keys of a
    dict, the characters of a string. *)
Definition iterate (v : pyval) : exn + list pyval :=
  match v with
  | PyList l => inr l
  | PyDict d => inr (map (fun kv => PyStr (fst kv)) d)
  | PyStr s => inr (map (fun c => PyStr [c]) s)
  | _ => inl (NotIterable (type_of v))
  end.

(** The check [str.join] makes on each item, from position [i] on. *)
Fixpoint join_items (i : nat) (vals : list pyval) : exn + list pystr :=
  match vals with
  | [] => inr []
  | PyStr s :: rest =>
      match join_items (S i) rest with
      | inr ss => inr (s :: ss)
      | inl e => inl e
      end
  | v :: _ => inl (JoinItem i (type_of v))
  end.

(** [sep.join(vals)] *)
Definition str_join (sep : pystr) (vals : list pyval) : exn + pystr :=
  match join_items 0 vals with
  | inr ss => inr (join sep ss)
  | inl e => inl e
  end.

(** ** The world outside the repository *)

(** What [httpx] hands back: the status line, the raw body and the outcome
    of [response.json()]. *)
Record Response := {
  status_code : Z;
  text : pystr;
  json : exn + pyval
}.

Record World := {
  (** [os.getenv] *)
  getenv : pystr -> option pystr;
  (** [httpx.AsyncClient().get(url, params=params)] *)
  client_get : pystr -> dict -> exn + Response;
  (** [YouTubeTranscriptApi.get_transcript(video_id)] *)
  get_transcript : pystr -> exn + pyval;
  (** [str(e)] for the exceptions the interpreter and pydantic raise *)
  runtime_str : exn -> pystr
}.

(** [str(e)]: a [ValueError] built from one message prints that message. *)
Definition str_exn (w : World) (e : exn) : pystr :=
  match e with
  | ValueError msg => msg
  | Collaborator msg => msg
  | _ => runtime_str w e
  end.

(** ** Effects: outbound calls and exceptions *)

(** The outbound calls a tool issues, in the order it issues them. *)
Inductive call :=
| HttpGet (url : pystr) (params : dict)
| TranscriptFetch (video_id : pystr).

Definition trace := list call.

(** A computation extends the trace of calls and either raises or
    returns. *)
Definition M (A : Type) : Type := trace -> trace * (exn + A).

Definition ret {A} (a : A) : M A := fun s => (s, inr a).

Definition raise {A} (e : exn) : M A := fun s => (s, inl e).

Definition bind {A B} (m : M A) (k : A -> M B) : M B :=
  fun s =>
    match m s with
    | (s', inr a) => k a s'
    | (s', inl e) => (s', inl e)
    end.

(** A pure step that may raise. *)
Definition lift {A} (r : exn + A) : M A := fun s => (s, r).

Declare Scope py_scope.
Delimit Scope py_scope with py.
Notation "x <- m ;; k" := (bind m (fun x => k))
  (at level 61, m at next level, right associativity) : py_scope.
Notation "' p <- m ;; k" := (bind m (fun p => k))
  (at level 61, p pattern, m at next level, right associativity) : py_scope.
Local Open Scope py_scope.

(** The GET itself: recorded in the trace, answered by the world. *)
Definition http_get (w : World) (url : pystr) (params : dict) : M Response :=
  fun s => (s ++ [HttpGet url params], client_get w url params).

(** The call to the transcript collaborator. *)
Definition YouTubeTranscriptApi_get_transcript (w : World) (video_id : pystr)
  : M pyval :=
  fun s => (s ++ [TranscriptFetch video_id], get_transcript w video_id).

(** Sequencing of pure steps that may raise. *)
Definition ebind {A B} (r : exn + A) (k : A -> exn + B) : exn + B :=
  match r with
  | inr a => k a
  | inl e => inl e
  end.

Notation "x <~ r ;; k" := (ebind r (fun x => k))
  (at level 61, r at next level, right associativity) : py_scope.

(** ** Configuration *)

Module Config.

(** [YOUTUBE_API_KEY = os.getenv("YOUTUBE_API_KEY")] *)
Definition YOUTUBE_API_KEY (w : World) : pyval :=
  match getenv w (lit "YOUTUBE_API_KEY") with
  | Some s => PyStr s
  | None => PyNone
  end.

(** The message built from the collected [errors]. *)
Definition error_msg (errors : list pystr) : pystr :=
  (lit "Missing required environment variables:" ++ nl)
    ++ join nl (map (fun e => lit "  - " ++ e) errors)
    ++ (nl ++ nl ++ lit "See module docstring for configuration details.").

Definition validate (w : World) : exn + unit :=
  let errors := [] in
  let errors :=
    if negb (truthy (YOUTUBE_API_KEY w))
    then errors ++ [lit "YOUTUBE_API_KEY is required"]
    else errors in
  match errors with
  | _ :: _ => inl (ValueError (error_msg errors))
  | [] => inr tt
  end.

End Config.

(** ** Request and response records *)

Definition field_errors := list (string * option nat * field_fault).

(** The exception a field validator raises becomes an entry of the
    record's [ValidationError] (the validators of [server.py] raise
    [ValueError] only). *)
Definition after_validator {A} (field : string) (r : exn + A)
  : field_errors + A :=
  match r with
  | inr a => inr a
  | inl e => inl [(field, None, ValidatorRaised e)]
  end.

(** [Field(ge=lo, le=hi)] on an [int]. *)
Definition check_range (field : string) (lo hi : Z) (z : Z) : field_errors + Z :=
  if (z <? lo)%Z then inl [(field, None, NotGreaterEqual lo)]
  else if (hi <? z)%Z then inl [(field, None, NotLessEqual hi)]
  else inr z.

(** A field annotated [str]. *)
Definition check_str (field : string) (at_index : option nat) (v : pyval)
  : field_errors + pystr :=
  match v with
  | PyStr s => inr s
  | _ => inl [(field, at_index, WrongType TStr (type_of v))]
  end.

(** A field annotated [Optional[str]]. *)
Definition check_optional_str (field : string) (v : pyval)
  : field_errors + option pystr :=
  match v with
  | PyNone => inr None
  | PyStr s => inr (Some s)
  | _ => inl [(field, None, WrongType TStr (type_of v))]
  end.

Definition errors_of {A} (r : field_errors + A) : field_errors :=
  match r with
  | inl es => es
  | inr _ => []
  end.

Module TranscriptRequest.

Record t := { video_id : pystr }.

Definition validate_video_id (v : pystr) : exn + pystr :=
  if negb (truthy (PyStr v)) || negb (Nat.eqb (List.length v) 11)
  then inl (ValueError (lit "video_id must be exactly 11 characters"))
  else inr v.

(** [TranscriptRequest(video_id=...)] *)
Definition new (video_id : pystr) : exn + t :=
  match after_validator "video_id" (validate_video_id video_id) with
  | inr v => inr {| video_id := v |}
  | inl es => inl (ValidationError "TranscriptRequest" es)
  end.

End TranscriptRequest.

Module TranscriptResponse.

Record t := {
  transcript : pystr;
  video_title : option pystr;
  video_description : option pystr
}.

(** [TranscriptResponse(transcript=..., video_title=..., video_description=...)] *)
Definition new (transcript : pystr) (video_title video_description : pyval)
  : exn + t :=
  match check_optional_str "video_title" video_title,
        check_optional_str "video_description" video_description with
  | inr ti, inr de =>
      inr {| transcript := transcript; video_title := ti;
             video_description := de |}
  | a, b => inl (ValidationError "TranscriptResponse" (errors_of a ++ errors_of b))
  end.

End TranscriptResponse.

Module SearchRequest.

Record t := { query : pystr; max_results : Z }.

Definition validate_query (v : pystr) : exn + pystr :=
  if negb (truthy (PyStr v)) || negb (truthy (PyStr (strip v)))
  then inl (ValueError (lit "query cannot be empty"))
  else inr (strip v).

(** [SearchRequest(query=..., max_results=...)]; an omitted
    [max_results] takes the default 5. *)
Definition new (query : pystr) (max_results : option Z) : exn + t :=
  match after_validator "query" (validate_query query),
        match max_results with
        | Some z => check_range "max_results" 1 50 z
        | None => inr 5%Z
        end with
  | inr q, inr m => inr {| query := q; max_results := m |}
  | a, b => inl (ValidationError "SearchRequest" (errors_of a ++ errors_of b))
  end.

End SearchRequest.

Module SearchResponse.

(** [videos: List[Dict[str, Any]]]; the tools only ever pass dictionaries
    with string keys, which the schema accepts as they are. *)
Record t := { videos : list dict }.

End SearchResponse.

Module VideoDetailsRequest.

Record t := { video_id : pystr }.

Definition validate_video_id (v : pystr) : exn + pystr :=
  if negb (truthy (PyStr v)) || negb (Nat.eqb (List.length v) 11)
  then inl (ValueError (lit "video_id must be exactly 11 characters"))
  else inr v.

Definition new (video_id : pystr) : exn + t :=
  match after_validator "video_id" (validate_video_id video_id) with
  | inr v => inr {| video_id := v |}
  | inl es => inl (ValidationError "VideoDetailsRequest" es)
  end.

End VideoDetailsRequest.

Module VideoDetailsResponse.

Record t := {
  video_id : pystr;
  title : pystr;
  description : pystr;
  published_at : pystr
}.

Definition new (video_id : pystr) (title description published_at : pyval)
  : exn + t :=
  match check_str "title" None title,
        check_str "description" None description,
        check_str "published_at" None published_at with
  | inr ti, inr de, inr pu =>
      inr {| video_id := video_id; title := ti; description := de;
             published_at := pu |}
  | a, b, c =>
      inl (ValidationError "VideoDetailsResponse"
             (errors_of a ++ errors_of b ++ errors_of c))
  end.

End VideoDetailsResponse.

Module CommentsRequest.

Record t := { video_id : pystr; max_results : Z }.

Definition validate_video_id (v : pystr) : exn + pystr :=
  if negb (truthy (PyStr v)) || negb (Nat.eqb (List.length v) 11)
  then inl (ValueError (lit "video_id must be exactly 11 characters"))
  else inr v.

(** An omitted [max_results] takes the default 20. *)
Definition new (video_id : pystr) (max_results : option Z) : exn + t :=
  match after_validator "video_id" (validate_video_id video_id),
        match max_results with
        | Some z => check_range "max_results" 1 100 z
        | None => inr 20%Z
        end with
  | inr v, inr m => inr {| video_id := v; max_results := m |}
  | a, b => inl (ValidationError "CommentsRequest" (errors_of a ++ errors_of b))
  end.

End CommentsRequest.

Module CommentsResponse.

Record t := { comments : list pystr }.

(** [comments: List[str]]: every element has to be a string; the
    failing positions are all reported. *)
Fixpoint check_items (i : nat) (vals : list pyval) : field_errors * list pystr :=
  match vals with
  | [] => ([], [])
  | v :: rest =>
      let '(es, ss) := check_items (S i) rest in
      match check_str "comments" (Some i) v with
      | inr s => (es, s :: ss)
      | inl e => (e ++ es, ss)
      end
  end.

Definition new (comments : list pyval) : exn + t :=
  match check_items 0 comments with
  | ([], ss) => inr {| comments := ss |}
  | (es, _) => inl (ValidationError "CommentsResponse" es)
  end.

End CommentsResponse.

(** ** The transport helper and the error wrapper *)

Definition _make_api_request (w : World) (url : pystr) (params : dict) : M pyval :=
  let params := dict_set (lit "key") (Config.YOUTUBE_API_KEY w) params in
  response <- http_get w url params ;;
  if negb (status_code response =? 200)%Z
  then raise (ValueError (lit "API request failed: "
                            ++ str_of_int (status_code response)
                            ++ lit " - " ++ text response))
  else lift (json response).

Definition _handle_api_error (w : World) (e : exn) : pystr :=
  lit "API Error: " ++ str_exn w e.

(** [try: body  except Exception as e: raise ValueError(_handle_api_error(e))] *)
Definition try_except {A} (w : World) (body : M A) : M A :=
  fun s =>
    match body s with
    | (s', inl e) => (s', inl (ValueError (_handle_api_error w e)))
    | (s', inr a) => (s', inr a)
    end.

(** ** The tools *)

(** [[item['text'] for item in transcript_list]] *)
Fixpoint fragment_texts (items : list pyval) : exn + list pyval :=
  match items with
  | [] => inr []
  | item :: rest =>
      t <~ getitem_str item (lit "text") ;;
      ts <~ fragment_texts rest ;;
      inr (t :: ts)
  end.

(** [" ".join([item['text'] for item in transcript_list])] *)
Definition joined_text (transcript_list : pyval) : exn + pystr :=
  items <~ iterate transcript_list ;;
  texts <~ fragment_texts items ;;
  str_join (lit " ") texts.

Definition get_youtube_transcript (w : World) (request : TranscriptRequest.t)
  : M TranscriptResponse.t :=
  let video_id := TranscriptRequest.video_id request in
  transcript <- try_except w (
    transcript_list <- YouTubeTranscriptApi_get_transcript w video_id ;;
    lift (joined_text transcript_list)) ;;
  '(video_title, video_description) <- try_except w (
    let url := lit "https://www.googleapis.com/youtube/v3/videos" in
    let params := [(lit "id", PyStr video_id); (lit "part", PyStr (lit "snippet"))] in
    data <- _make_api_request w url params ;;
    items <- lift (getitem_str data (lit "items")) ;;
    if negb (truthy items) then raise (ValueError (lit "Video not found")) else
    first <- lift (getitem_int items 0) ;;
    snippet <- lift (getitem_str first (lit "snippet")) ;;
    video_title <- lift (getitem_str snippet (lit "title")) ;;
    video_description <- lift (getitem_str snippet (lit "description")) ;;
    ret (video_title, video_description)) ;;
  lift (TranscriptResponse.new transcript video_title video_description).

(** The loop of [youtube_search_videos]; [videos] is the list built so
    far. *)
Fixpoint search_videos_loop (items : list pyval) (videos : list dict)
  : exn + list dict :=
  match items with
  | [] => inr videos
  | item :: rest =>
      id <~ getitem_str item (lit "id") ;;
      video_id <~ getitem_str id (lit "videoId") ;;
      snippet <~ getitem_str item (lit "snippet") ;;
      title <~ getitem_str snippet (lit "title") ;;
      snippet' <~ getitem_str item (lit "snippet") ;;
      description <~ getitem_str snippet' (lit "description") ;;
      search_videos_loop rest
        (videos ++ [[(lit "video_id", video_id); (lit "title", title);
                     (lit "description", description)]])
  end.

Definition youtube_search_videos (w : World) (request : SearchRequest.t)
  : M SearchResponse.t :=
  try_except w (
    let url := lit "https://www.googleapis.com/youtube/v3/search" in
    let params := [(lit "q", PyStr (SearchRequest.query request));
                   (lit "part", PyStr (lit "snippet"));
                   (lit "type", PyStr (lit "video"));
                   (lit "maxResults", PyInt (SearchRequest.max_results request))] in
    data <- _make_api_request w url params ;;
    items <- lift (found <~ dict_get data (lit "items") (PyList []) ;; iterate found) ;;
    videos <- lift (search_videos_loop items []) ;;
    ret {| SearchResponse.videos := videos |}).

Definition youtube_get_video_details (w : World) (request : VideoDetailsRequest.t)
  : M VideoDetailsResponse.t :=
  try_except w (
    let url := lit "https://www.googleapis.com/youtube/v3/videos" in
    let params := [(lit "id", PyStr (VideoDetailsRequest.video_id request));
                   (lit "part", PyStr (lit "snippet"))] in
    data <- _make_api_request w url params ;;
    items <- lift (getitem_str data (lit "items")) ;;
    if negb (truthy items) then raise (ValueError (lit "Video not found")) else
    first <- lift (getitem_int items 0) ;;
    snippet <- lift (getitem_str first (lit "snippet")) ;;
    title <- lift (getitem_str snippet (lit "title")) ;;
    description <- lift (getitem_str snippet (lit "description")) ;;
    published_at <- lift (getitem_str snippet (lit "publishedAt")) ;;
    lift (VideoDetailsResponse.new (VideoDetailsRequest.video_id request)
            title description published_at)).

(** The loop of [youtube_get_comments]. *)
Fixpoint comments_loop (items : list pyval) (comments : list pyval)
  : exn + list pyval :=
  match items with
  | [] => inr comments
  | item :: rest =>
      snippet <~ getitem_str item (lit "snippet") ;;
      top <~ getitem_str snippet (lit "topLevelComment") ;;
      inner <~ getitem_str top (lit "snippet") ;;
      comment_text <~ getitem_str inner (lit "textDisplay") ;;
      comments_loop rest (comments ++ [comment_text])
  end.

Definition youtube_get_comments (w : World) (request : CommentsRequest.t)
  : M CommentsResponse.t :=
  try_except w (
    let url := lit "https://www.googleapis.com/youtube/v3/commentThreads" in
    let params := [(lit "videoId", PyStr (CommentsRequest.video_id request));
                   (lit "part", PyStr (lit "snippet"));
                   (lit "maxResults", PyInt (CommentsRequest.max_results request))] in
    data <- _make_api_request w url params ;;
    items <- lift (found <~ dict_get data (lit "items") (PyList []) ;; iterate found) ;;
    comments <- lift (comments_loop items []) ;;
    lift (CommentsResponse.new comments)).

(** The loop of [youtube_list_channel_videos]. *)
Fixpoint list_channel_videos_loop (items : list pyval) (videos : list dict)
  : exn + list dict :=
  match items with
  | [] => inr videos
  | item :: rest =>
      id <~ getitem_str item (lit "id") ;;
      video_id <~ getitem_str id (lit "videoId") ;;
      snippet <~ getitem_str item (lit "snippet") ;;
      title <~ getitem_str snippet (lit "title") ;;
      snippet' <~ getitem_str item (lit "snippet") ;;
      description <~ getitem_str snippet' (lit "description") ;;
      list_channel_videos_loop rest
        (videos ++ [[(lit "video_id", video_id); (lit "title", title);
                     (lit "description", description)]])
  end.

Definition youtube_list_channel_videos (w : World) (request : SearchRequest.t)
  : M SearchResponse.t :=
  try_except w (
    let url := lit "https://www.googleapis.com/youtube/v3/search" in
    let params := [(lit "q", PyStr (SearchRequest.query request));
                   (lit "part", PyStr (lit "snippet"));
                   (lit "type", PyStr (lit "video"));
                   (lit "maxResults", PyInt (SearchRequest.max_results request))] in
    data <- _make_api_request w url params ;;
    items <- lift (found <~ dict_get data (lit "items") (PyList []) ;; iterate found) ;;
    videos <- lift (list_channel_videos_loop items []) ;;
    ret {| SearchResponse.videos := videos |}).

(** ** Start-up and dispatch *)

(** Importing the module runs [Config.validate()] before [FastMCP] is
    created and before any [@mcp.tool()] registers a tool: when it raises,
    nothing below it is executed. *)
Inductive server :=
| StartupFailed (e : exn)
| Serving (tools : list string).

Definition startup (w : World) : server :=
  match Config.validate w with
  | inl e => StartupFailed e
  | inr _ =>
      Serving ["get_youtube_transcript"; "youtube_search_videos";
               "youtube_get_video_details"; "youtube_get_comments";
               "youtube_list_channel_videos"]%string
  end.

(** The arguments a host sends to a tool, already of the declared types;
    [None] for an omitted [max_results]. *)
Inductive tool_args :=
| Args_get_youtube_transcript (video_id : pystr)
| Args_youtube_search_videos (query : pystr) (max_results : option Z)
| Args_youtube_get_video_details (video_id : pystr)
| Args_youtube_get_comments (video_id : pystr) (max_results : option Z)
| Args_youtube_list_channel_videos (query : pystr) (max_results : option Z).

(** A validated request, as a tool body receives it. *)
Inductive tool_request :=
| Req_get_youtube_transcript (request : TranscriptRequest.t)
| Req_youtube_search_videos (request : SearchRequest.t)
| Req_youtube_get_video_details (request : VideoDetailsRequest.t)
| Req_youtube_get_comments (request : CommentsRequest.t)
| Req_youtube_list_channel_videos (request : SearchRequest.t).

Inductive tool_result :=
| Res_transcript (r : TranscriptResponse.t)
| Res_search (r : SearchResponse.t)
| Res_details (r : VideoDetailsResponse.t)
| Res_comments (r : CommentsResponse.t).

(** The schema layer: the request record is built from the arguments, which
    runs the field validators and the range checks. *)
Definition build_request (a : tool_args) : exn + tool_request :=
  match a with
  | Args_get_youtube_transcript v =>
      r <~ TranscriptRequest.new v ;; inr (Req_get_youtube_transcript r)
  | Args_youtube_search_videos q m =>
      r <~ SearchRequest.new q m ;; inr (Req_youtube_search_videos r)
  | Args_youtube_get_video_details v =>
      r <~ VideoDetailsRequest.new v ;; inr (Req_youtube_get_video_details r)
  | Args_youtube_get_comments v m =>
      r <~ CommentsRequest.new v m ;; inr (Req_youtube_get_comments r)
  | Args_youtube_list_channel_videos q m =>
      r <~ SearchRequest.new q m ;; inr (Req_youtube_list_channel_videos r)
  end.

(** The body of the tool a request is for. *)
Definition run_tool (w : World) (r : tool_request) : M tool_result :=
  match r with
  | Req_get_youtube_transcript request =>
      out <- get_youtube_transcript w request ;; ret (Res_transcript out)
  | Req_youtube_search_videos request =>
      out <- youtube_search_videos w request ;; ret (Res_search out)
  | Req_youtube_get_video_details request =>
      out <- youtube_get_video_details w request ;; ret (Res_details out)
  | Req_youtube_get_comments request =>
      out <- youtube_get_comments w request ;; ret (Res_comments out)
  | Req_youtube_list_channel_videos request =>
      out <- youtube_list_channel_videos w request ;; ret (Res_search out)
  end.

(** One invocation by the host: the request record is built first, the tool
    body runs only on a record that passed. *)
Definition call_tool (w : World) (a : tool_args) : M tool_result :=
  request <- lift (build_request a) ;;
  run_tool w request.

(** ** Vocabulary of the statements *)

(** An error in the uniform shape: [ValueError("API Error: " + str(e))]. *)
Definition wrapped (w : World) (e : exn) : Prop :=
  exists cause, e = ValueError (lit "API Error: " ++ str_exn w cause).

(** The endpoint and the parameters a tool body passes to
    [_make_api_request]. *)
Definition api_request (r : tool_request) : pystr * dict :=
  match r with
  | Req_get_youtube_transcript request =>
      (lit "https://www.googleapis.com/youtube/v3/videos",
       [(lit "id", PyStr (TranscriptRequest.video_id request));
        (lit "part", PyStr (lit "snippet"))])
  | Req_youtube_get_video_details request =>
      (lit "https://www.googleapis.com/youtube/v3/videos",
       [(lit "id", PyStr (VideoDetailsRequest.video_id request));
        (lit "part", PyStr (lit "snippet"))])
  | Req_youtube_search_videos request
  | Req_youtube_list_channel_videos request =>
      (lit "https://www.googleapis.com/youtube/v3/search",
       [(lit "q", PyStr (SearchRequest.query request));
        (lit "part", PyStr (lit "snippet"));
        (lit "type", PyStr (lit "video"));
        (lit "maxResults", PyInt (SearchRequest.max_results request))])
  | Req_youtube_get_comments request =>
      (lit "https://www.googleapis.com/youtube/v3/commentThreads",
       [(lit "videoId", PyStr (CommentsRequest.video_id request));
        (lit "part", PyStr (lit "snippet"));
        (lit "maxResults", PyInt (CommentsRequest.max_results request))])
  end.

(** The GET that leaves the process for a request: the credential is added
    as [key]. *)
Definition outgoing (w : World) (r : tool_request) : call :=
  HttpGet (fst (api_request r))
    (dict_set (lit "key") (Config.YOUTUBE_API_KEY w) (snd (api_request r))).

(** What the remote service answers to it. *)
Definition api_answer (w : World) (r : tool_request) : exn + Response :=
  client_get w (fst (api_request r))
    (dict_set (lit "key") (Config.YOUTUBE_API_KEY w) (snd (api_request r))).

(** The remote answered 200 with the JSON value [data]. *)
Definition answered (w : World) (r : tool_request) (data : pyval) : Prop :=
  exists response,
    api_answer w r = inr response /\ status_code response = 200%Z
    /\ json response = inr data.

(** The first step of the transcript tool went through: the collaborator
    returned fragments whose texts joined into [transcript]. *)
Definition transcript_fetched (w : World) (video_id transcript : pystr) : Prop :=
  exists transcript_list,
    get_transcript w video_id = inr transcript_list
    /\ joined_text transcript_list = inr transcript.

(** [text_of item t]: the fragment [item] carries the text [t]. *)
Definition text_of (item : pyval) (t : pystr) : Prop :=
  getitem_str item (lit "text") = inr (PyStr t).


(** [max_results] was given and lies outside [lo..hi]. *)
Definition out_of_range (lo hi : Z) (m : option Z) : Prop :=
  exists z, m = Some z /\ (z < lo \/ hi < z)%Z.

(** A query that is empty or made of whitespace only. *)
Definition blank (q : pystr) : Prop := forallb isspace q = true.

(** The invalid inputs: an identifier whose length is not 11, a blank
    query, a limit outside the declared range. *)
Definition invalid_args (a : tool_args) : Prop :=
  match a with
  | Args_get_youtube_transcript v => List.length v <> 11
  | Args_youtube_get_video_details v => List.length v <> 11
  | Args_youtube_get_comments v m => List.length v <> 11 \/ out_of_range 1 100 m
  | Args_youtube_search_videos q m => blank q \/ out_of_range 1 50 m
  | Args_youtube_list_channel_videos q m => blank q \/ out_of_range 1 50 m
  end.

(** A string that is not empty and has no whitespace at either end. *)
Definition trimmed (q : pystr) : Prop :=
  (exists c rest, q = c :: rest /\ isspace c = false)
  /\ (exists init c, q = init ++ [c] /\ isspace c = false).

(** What the data model asks of a request record. *)
Definition request_ok (r : tool_request) : Prop :=
  match r with
  | Req_get_youtube_transcript request =>
      List.length (TranscriptRequest.video_id request) = 11
  | Req_youtube_get_video_details request =>
      List.length (VideoDetailsRequest.video_id request) = 11
  | Req_youtube_get_comments request =>
      List.length (CommentsRequest.video_id request) = 11
      /\ (1 <= CommentsRequest.max_results request <= 100)%Z
  | Req_youtube_search_videos request
  | Req_youtube_list_channel_videos request =>
      trimmed (SearchRequest.query request)
      /\ (1 <= SearchRequest.max_results request <= 50)%Z
  end.

(** The arguments that spell out a request record, every field given. *)
Definition args_of (r : tool_request) : tool_args :=
  match r with
  | Req_get_youtube_transcript request =>
      Args_get_youtube_transcript (TranscriptRequest.video_id request)
  | Req_youtube_search_videos request =>
      Args_youtube_search_videos (SearchRequest.query request)
        (Some (SearchRequest.max_results request))
  | Req_youtube_get_video_details request =>
      Args_youtube_get_video_details (VideoDetailsRequest.video_id request)
  | Req_youtube_get_comments request =>
      Args_youtube_get_comments (CommentsRequest.video_id request)
        (Some (CommentsRequest.max_results request))
  | Req_youtube_list_channel_videos request =>
      Args_youtube_list_channel_videos (SearchRequest.query request)
        (Some (SearchRequest.max_results request))
  end.


(** The tool body reaches its GET: always, except for the transcript tool,
    which first needs its transcript step to go through. *)
Definition reaches_api (w : World) (r : tool_request) : Prop :=
  match r with
  | Req_get_youtube_transcript request =>
      exists text, transcript_fetched w (TranscriptRequest.video_id request) text
  | _ => True
  end.

(** The calls a tool body has issued when it reaches its GET. *)
Definition calls_until_api (w : World) (r : tool_request) : trace :=
  match r with
  | Req_get_youtube_transcript request =>
      [TranscriptFetch (TranscriptRequest.video_id request); outgoing w r]
  | _ => [outgoing w r]
  end.

(** The results of [f] on the elements of [l] in order, or the first
    exception met: what a loop that appends one result per element leaves
    behind. *)
Fixpoint collect {A B} (f : A -> exn + B) (l : list A) : exn + list B :=
  match l with
  | [] => inr []
  | x :: rest =>
      y <~ f x ;;
      ys <~ collect f rest ;;
      inr (y :: ys)
  end.

(** A JSON value fit for a field annotated [Optional[str]], and the field
    it gives. *)
Definition optional_text (v : pyval) (o : option pystr) : Prop :=
  match v with
  | PyNone => o = None
  | PyStr s => o = Some s
  | _ => False
  end.

(** The tools that look one video up, and the tools that list items. *)
Definition looks_up_video (r : tool_request) : bool :=
  match r with
  | Req_get_youtube_transcript _ | Req_youtube_get_video_details _ => true
  | _ => false
  end.

Definition lists_items (r : tool_request) : bool := negb (looks_up_video r).

(** The tools registered after a successful start. *)
Definition registered_tools : list string :=
  ["get_youtube_transcript"; "youtube_search_videos";
   "youtube_get_video_details"; "youtube_get_comments";
   "youtube_list_channel_videos"]%string.

(** A computation that issues no call. *)
Definition silent {A} (m : M A) : Prop := forall s, fst (m s) = s.

(** One pass of the body of the search loops: the entry built for
    [item]. *)
Definition video_of (item : pyval) : exn + dict :=
  id <~ getitem_str item (lit "id") ;;
  video_id <~ getitem_str id (lit "videoId") ;;
  snippet <~ getitem_str item (lit "snippet") ;;
  title <~ getitem_str snippet (lit "title") ;;
  snippet' <~ getitem_str item (lit "snippet") ;;
  description <~ getitem_str snippet' (lit "description") ;;
  inr [(lit "video_id", video_id); (lit "title", title);
       (lit "description", description)].

(** One pass of the body of the comments loop: the text read from
    [item]. *)
Definition comment_of (item : pyval) : exn + pyval :=
  snippet <~ getitem_str item (lit "snippet") ;;
  top <~ getitem_str snippet (lit "topLevelComment") ;;
  inner <~ getitem_str top (lit "snippet") ;;
  getitem_str inner (lit "textDisplay").

(** ** Sample worlds, to run the model on the scenarios of the
    specification *)

(** A rendering of the interpreter's exceptions in the wording of CPython
    3.12; pydantic's multi-line report is abridged to its first line. *)
Definition type_name (t : pytype) : pystr :=
  match t with
  | TNone => lit "NoneType"
  | TBool => lit "bool"
  | TInt => lit "int"
  | TFloat => lit "float"
  | TStr => lit "str"
  | TList => lit "list"
  | TDict => lit "dict"
  end.

Definition sample_str (e : exn) : pystr :=
  match e with
  | ValueError msg => msg
  | Collaborator msg => msg
  | KeyError (PyStr k) => lit "'" ++ k ++ lit "'"
  | KeyError (PyInt z) => str_of_int z
  | KeyError _ => lit "?"
  | IndexError t => type_name t ++ lit " index out of range"
  | NotSubscriptable t => lit "'" ++ type_name t ++ lit "' object is not subscriptable"
  | BadIndexType TStr _ => lit "string indices must be integers, not 'str'"
  | BadIndexType c i =>
      type_name c ++ lit " indices must be integers or slices, not " ++ type_name i
  | NotIterable t => lit "'" ++ type_name t ++ lit "' object is not iterable"
  | NoAttribute t a =>
      lit "'" ++ type_name t ++ lit "' object has no attribute '" ++ lit a ++ lit "'"
  | JoinItem i t =>
      lit "sequence item " ++ str_of_int (Z.of_nat i)
        ++ lit ": expected str instance, " ++ type_name t ++ lit " found"
  | ValidationError model errors =>
      str_of_int (Z.of_nat (List.length errors))
        ++ lit " validation error for " ++ lit model
  end.

(** A world with the credential set, one canned HTTP answer and one canned
    transcript. *)
Definition canned (r : exn + Response) (t : exn + pyval) : World :=
  {| getenv := fun name =>
       if pystr_eqb name (lit "YOUTUBE_API_KEY") then Some (lit "k3y") else None;
     client_get := fun _ _ => r;
     get_transcript := fun _ => t;
     runtime_str := sample_str |}.

Definition ok_json (v : pyval) : exn + Response :=
  inr {| status_code := 200; text := []; json := inr v |}.

Definition fragment (t : string) : pyval :=
  PyDict [(lit "text", PyStr (lit t)); (lit "start", PyInt 0);
          (lit "duration", PyInt 1)].

Definition search_item (id title : string) : pyval :=
  PyDict [(lit "id", PyDict [(lit "kind", PyStr (lit "youtube#video"));
                             (lit "videoId", PyStr (lit id))]);
          (lit "snippet", PyDict [(lit "title", PyStr (lit title));
                                  (lit "description", PyStr (lit "about cats"))])].

(** The scenario of the specification: the identifier [dQw4w9WgXcQ], three
    caption fragments and one [videos] item. *)
Definition rick_id : pystr := lit "dQw4w9WgXcQ".

Definition rick_snippet : pyval :=
  PyDict [(lit "publishedAt", PyStr (lit "2009-10-25T06:57:33Z"));
          (lit "title", PyStr (lit "Rick Astley - Never Gonna Give You Up"));
          (lit "description", PyStr (lit "The official video"))].

Definition rick_data : pyval :=
  PyDict [(lit "kind", PyStr (lit "youtube#videoListResponse"));
          (lit "items", PyList [PyDict [(lit "id", PyStr (lit "another-id"));
                                        (lit "snippet", rick_snippet)]])].

Definition rick_fragments : list pyval :=
  [fragment "Never"; fragment "gonna"; fragment "give"].

Definition rick_world : World :=
  canned (ok_json rick_data) (inr (PyList rick_fragments)).

Definition rick_transcript : TranscriptResponse.t :=
  {| TranscriptResponse.transcript := lit "Never gonna give";
     TranscriptResponse.video_title :=
       Some (lit "Rick Astley - Never Gonna Give You Up");
     TranscriptResponse.video_description := Some (lit "The official video") |}.

Definition rick_details : VideoDetailsResponse.t :=
  {| VideoDetailsResponse.video_id := rick_id;
     VideoDetailsResponse.title := lit "Rick Astley - Never Gonna Give You Up";
     VideoDetailsResponse.description := lit "The official video";
     VideoDetailsResponse.published_at := lit "2009-10-25T06:57:33Z" |}.

(** The search scenario: the query [cats] with limit 3, answered with five
    items. *)
Definition cats_request : SearchRequest.t :=
  {| SearchRequest.query := lit "cats"; SearchRequest.max_results := 3 |}.

Definition five_cats : list pyval :=
  [search_item "cat00000001" "one"; search_item "cat00000002" "two";
   search_item "cat00000003" "three"; search_item "cat00000004" "four";
   search_item "cat00000005" "five"].

Definition five_cats_data : pyval := PyDict [(lit "items", PyList five_cats)].

Definition cat_entry (id title : string) : dict :=
  [(lit "video_id", PyStr (lit id)); (lit "title", PyStr (lit title));
   (lit "description", PyStr (lit "about cats"))].

Definition five_cats_videos : SearchResponse.t :=
  {| SearchResponse.videos :=
       [cat_entry "cat00000001" "one"; cat_entry "cat00000002" "two";
        cat_entry "cat00000003" "three"; cat_entry "cat00000004" "four";
        cat_entry "cat00000005" "five"] |}.

Definition five_cats_world : World :=
  canned (ok_json five_cats_data) (inr (PyList rick_fragments)).

(** Answers without items, with an empty list of items, and a refusal. *)
Definition no_items_world : World :=
  canned (ok_json (PyDict [(lit "kind", PyStr (lit "youtube#videoListResponse"))]))
    (inr (PyList rick_fragments)).

Definition empty_items_data : pyval := PyDict [(lit "items", PyList [])].

Definition empty_items_world : World :=
  canned (ok_json empty_items_data) (inr (PyList rick_fragments)).

Definition forbidden : Response :=
  {| status_code := 403; text := lit "quotaExceeded";
     json := inr (PyDict [(lit "error", PyStr (lit "quotaExceeded"))]) |}.

Definition forbidden_world : World :=
  canned (inr forbidden) (inr (PyList rick_fragments)).

(** An answer whose title is a number instead of a string. *)
Definition numeric_title_world : World :=
  canned
    (ok_json (PyDict [(lit "items",
                       PyList [PyDict [(lit "snippet",
                                        PyDict [(lit "title", PyInt 7);
                                                (lit "description", PyNone)])]])]))
    (inr (PyList rick_fragments)).





(** An answer whose second item has no [snippet]. *)
Definition broken_item : pyval :=
  PyDict [(lit "id", PyDict [(lit "videoId", PyStr (lit "cat00000002"))])].

Definition broken_cats_data : pyval :=
  PyDict [(lit "items", PyList [search_item "cat00000001" "one"; broken_item])].

Definition broken_cats_world : World :=
  canned (ok_json broken_cats_data) (inr (PyList rick_fragments)).

(** An answer of [commentThreads] with two threads, the first with a
    reply. *)
Definition thread (text : string) (replies : list pyval) : pyval :=
  PyDict [(lit "snippet",
           PyDict [(lit "topLevelComment",
                    PyDict [(lit "snippet",
                             PyDict [(lit "textDisplay", PyStr (lit text))])]);
                   (lit "totalReplyCount",
                    PyInt (Z.of_nat (List.length replies)))]);
          (lit "replies", PyDict [(lit "comments", PyList replies)])].

Definition two_threads : list pyval :=
  [thread "first!" [PyDict [(lit "snippet",
                             PyDict [(lit "textDisplay", PyStr (lit "no, me"))])]];
   thread "great song" []].

Definition two_threads_data : pyval := PyDict [(lit "items", PyList two_threads)].

Definition two_threads_world : World :=
  canned (ok_json two_threads_data) (inr (PyList rick_fragments)).

Definition rick_comments_request : CommentsRequest.t :=
  {| CommentsRequest.video_id := rick_id; CommentsRequest.max_results := 1 |}.

(** An answer whose [items] is [null], and one whose title is [null]. *)
Definition null_items_entries : dict := [(lit "items", PyNone)].

Definition null_items_world : World :=
  canned (ok_json (PyDict null_items_entries)) (inr (PyList rick_fragments)).

Definition null_title_snippet : pyval :=
  PyDict [(lit "title", PyNone);
          (lit "description", PyStr (lit "The official video"));
          (lit "publishedAt", PyStr (lit "2009-10-25T06:57:33Z"))].

Definition null_title_item : pyval := PyDict [(lit "snippet", null_title_snippet)].

Definition null_title_data : pyval :=
  PyDict [(lit "items", PyList [null_title_item])].

Definition null_title_world : World :=
  canned (ok_json null_title_data) (inr (PyList rick_fragments)).

Definition numeric_title_snippet : pyval :=
  PyDict [(lit "title", PyInt 7); (lit "description", PyNone)].

Definition rick_item : pyval :=
  PyDict [(lit "id", PyStr (lit "another-id")); (lit "snippet", rick_snippet)].

(** A process started without the credential. *)
Definition no_credential_world : World :=
  {| getenv := fun _ => None;
     client_get := fun _ _ => inl (Collaborator (lit "unreachable"));
     get_transcript := fun _ => inl (Collaborator (lit "unreachable"));
     runtime_str := sample_str |}.


(** * Properties *)

(** ** Strings *)

Lemma contains_middle (pre needle post : pystr) :
  contains (pre ++ needle ++ post) needle.
Proof. exists pre, post. reflexivity. Qed.

Lemma contains_suffix (pre needle : pystr) : contains (pre ++ needle) needle.
Proof. exists pre, []. now rewrite app_nil_r. Qed.

Lemma contains_app_r (pre hay needle : pystr) :
  contains hay needle -> contains (pre ++ hay) needle.
Proof.
  intros (a & b & ->). exists (pre ++ a), b. now rewrite <- app_assoc.
Qed.

Lemma contains_app_l (hay post needle : pystr) :
  contains hay needle -> contains (hay ++ post) needle.
Proof.
  intros (a & b & ->). exists a, (b ++ post). now rewrite <- !app_assoc.
Qed.

Lemma contains_join (sep : pystr) (parts : list pystr) (p : pystr) :
  In p parts -> contains (join sep parts) p.
Proof.
  induction parts as [|q rest IH]; intros Hin; [destruct Hin|].
  destruct rest as [|q' rest'].
  - destruct Hin as [->|[]]. exists [], []. cbn. now rewrite app_nil_r.
  - change (join sep (q :: q' :: rest')) with (q ++ sep ++ join sep (q' :: rest')).
    destruct Hin as [->|Hin].
    + exists [], (sep ++ join sep (q' :: rest')). reflexivity.
    + apply contains_app_r, contains_app_r, IH, Hin.
Qed.

Lemma lstrip_blank (q : pystr) : forallb isspace q = true -> lstrip q = [].
Proof.
  induction q as [|c q IH]; cbn; [reflexivity|].
  intros H. apply andb_true_iff in H as [Hc Hq]. rewrite Hc. auto.
Qed.

Lemma strip_blank (q : pystr) : blank q -> strip q = [].
Proof. intros H. unfold strip. now rewrite (lstrip_blank q H). Qed.

(** ** The monad *)


Lemma try_except_success {A} (w : World) (body : M A) (s s' : trace) (a : A) :
  try_except w body s = (s', inr a) -> body s = (s', inr a).
Proof.
  unfold try_except. destruct (body s) as [s1 [e1|a1]]; intros H; inversion H.
  reflexivity.
Qed.

(** ** The transport helper *)

(** One GET is issued, with the credential added; the outcome depends on
    the answer only. *)
Lemma make_api_request_run (w : World) (url : pystr) (params : dict) (s : trace) :
  _make_api_request w url params s =
    (s ++ [HttpGet url (dict_set (lit "key") (Config.YOUTUBE_API_KEY w) params)],
     match client_get w url
             (dict_set (lit "key") (Config.YOUTUBE_API_KEY w) params) with
     | inl e => inl e
     | inr response =>
         if (status_code response =? 200)%Z then json response
         else inl (ValueError (lit "API request failed: "
                                 ++ str_of_int (status_code response)
                                 ++ lit " - " ++ text response))
     end).
Proof.
  unfold _make_api_request, bind, http_get, raise, lift.
  destruct (client_get w url _) as [e|response]; [reflexivity|].
  destruct (status_code response =? 200)%Z; reflexivity.
Qed.

(** The helper returns [data] exactly when the remote answered 200 with a
    body that parses to [data]. *)
Lemma make_api_request_returns
    (w : World) (url : pystr) (params : dict) (s s' : trace) (data : pyval) :
  _make_api_request w url params s = (s', inr data) ->
  exists response,
    client_get w url (dict_set (lit "key") (Config.YOUTUBE_API_KEY w) params)
      = inr response
    /\ status_code response = 200%Z /\ json response = inr data.
Proof.
  rewrite make_api_request_run. intros H. inversion H as [[Hs Hr]]. clear H Hs.
  destruct (client_get w url _) as [e|response]; [discriminate|].
  destruct (status_code response =? 200)%Z eqn:E; [|discriminate].
  exists response. apply Z.eqb_eq in E. auto.
Qed.

Lemma make_api_request_answered
    (w : World) (url : pystr) (params : dict) (s : trace)
    (response : Response) (data : pyval) :
  client_get w url (dict_set (lit "key") (Config.YOUTUBE_API_KEY w) params)
    = inr response ->
  status_code response = 200%Z -> json response = inr data ->
  _make_api_request w url params s =
    (s ++ [HttpGet url (dict_set (lit "key") (Config.YOUTUBE_API_KEY w) params)],
     inr data).
Proof.
  intros Hget H200 Hjson. now rewrite make_api_request_run, Hget, H200, Hjson.
Qed.

(** C6. When the remote answers the helper's GET with status 200 and the
    body parses to [body], the helper returns [body]; when it answers with
    any other status, the helper raises an error whose message contains the
    decimal status code and the raw body text. *)
Theorem make_api_request_contract
    (w : World) (url : pystr) (params : dict) (s : trace) (response : Response) :
  client_get w url (dict_set (lit "key") (Config.YOUTUBE_API_KEY w) params)
    = inr response ->
  (status_code response = 200%Z ->
     forall body, json response = inr body ->
     snd (_make_api_request w url params s) = inr body)
  /\ (status_code response <> 200%Z ->
     exists msg,
       snd (_make_api_request w url params s) = inl (ValueError msg)
       /\ contains msg (str_of_int (status_code response))
       /\ contains msg (text response)).
Proof.
  intros Hget. rewrite make_api_request_run, Hget. cbn [snd]. split.
  - intros H200 body Hbody. now rewrite H200, Hbody.
  - intros Hne. apply Z.eqb_neq in Hne. rewrite Hne.
    eexists. split; [reflexivity|]. split.
    + apply contains_middle.
    + apply contains_app_r, contains_app_r, contains_suffix.
Qed.

(** ** Configuration *)

Lemma error_msg_lists_all (errors : list pystr) (e : pystr) :
  In e errors -> contains (Config.error_msg errors) e.
Proof.
  intros Hin. unfold Config.error_msg.
  apply contains_app_r, contains_app_l.
  apply (in_map (fun e => lit "  - " ++ e)) in Hin.
  apply (contains_join nl) in Hin. destruct Hin as (a & b & Heq).
  rewrite Heq. exists (a ++ lit "  - "), b. now rewrite <- !app_assoc.
Qed.

(** C8. Without the credential in the environment, start-up fails with a
    [ValueError] whose message is built from the whole list of collected
    violations and names the missing setting, and no tool is served; the
    message built from a list of violations contains every one of them. *)
Theorem startup_fails_without_credential (w : World) :
  getenv w (lit "YOUTUBE_API_KEY") = None ->
  startup w
    = StartupFailed (ValueError (Config.error_msg [lit "YOUTUBE_API_KEY is required"]))
  /\ contains (Config.error_msg [lit "YOUTUBE_API_KEY is required"])
       (lit "YOUTUBE_API_KEY")
  /\ (forall tools, startup w <> Serving tools)
  /\ (forall errors e, In e errors -> contains (Config.error_msg errors) e).
Proof.
  intros Hkey.
  assert (Hs : startup w = StartupFailed
            (ValueError (Config.error_msg [lit "YOUTUBE_API_KEY is required"]))).
  { unfold startup, Config.validate, Config.YOUTUBE_API_KEY. now rewrite Hkey. }
  split; [exact Hs|]. split; [|split].
  - pose proof (error_msg_lists_all [lit "YOUTUBE_API_KEY is required"]
                  (lit "YOUTUBE_API_KEY is required") (or_introl eq_refl)) as (a & b & Heq).
    rewrite Heq. exists a, (lit " is required" ++ b). reflexivity.
  - intros tools. rewrite Hs. discriminate.
  - exact error_msg_lists_all.
Qed.

(** ** Video details *)

(** Splitting a run of [bind] on its first step. *)
Lemma bind_returns {A B} (m : M A) (k : A -> M B) (s s' : trace) (b : B) :
  bind m k s = (s', inr b) ->
  exists s1 a, m s = (s1, inr a) /\ k a s1 = (s', inr b).
Proof.
  unfold bind. destruct (m s) as [s1 [e|a]]; intros H; [discriminate|].
  now exists s1, a.
Qed.

Lemma lift_returns {A} (r : exn + A) (s s' : trace) (a : A) :
  lift r s = (s', inr a) -> r = inr a /\ s' = s.
Proof. unfold lift. intros H. inversion H. auto. Qed.

(** C9. When the video-details tool returns, the [video_id] of its result is
    the identifier of the request, and [title], [description] and
    [published_at] are the strings found under those keys ([publishedAt]
    for the last) in the [snippet] of the first element of the [items] of
    the 200 answer. *)
Theorem details_echo_id_and_copy_snippet
    (w : World) (request : VideoDetailsRequest.t) (s s' : trace)
    (out : VideoDetailsResponse.t) :
  youtube_get_video_details w request s = (s', inr out) ->
  VideoDetailsResponse.video_id out = VideoDetailsRequest.video_id request
  /\ exists data items first snippet,
       answered w (Req_youtube_get_video_details request) data
       /\ getitem_str data (lit "items") = inr items
       /\ getitem_int items 0 = inr first
       /\ getitem_str first (lit "snippet") = inr snippet
       /\ getitem_str snippet (lit "title")
            = inr (PyStr (VideoDetailsResponse.title out))
       /\ getitem_str snippet (lit "description")
            = inr (PyStr (VideoDetailsResponse.description out))
       /\ getitem_str snippet (lit "publishedAt")
            = inr (PyStr (VideoDetailsResponse.published_at out)).
Proof.
  intros H. apply try_except_success in H.
  apply bind_returns in H as (s1 & data & Hdata & H).
  apply make_api_request_returns in Hdata.
  apply bind_returns in H as (s2 & items & Hitems & H).
  apply lift_returns in Hitems as [Hitems ->].
  destruct (negb (truthy items)); [discriminate|].
  apply bind_returns in H as (s3 & first & Hfirst & H).
  apply lift_returns in Hfirst as [Hfirst ->].
  apply bind_returns in H as (s4 & snippet & Hsnippet & H).
  apply lift_returns in Hsnippet as [Hsnippet ->].
  apply bind_returns in H as (s5 & title & Htitle & H).
  apply lift_returns in Htitle as [Htitle ->].
  apply bind_returns in H as (s6 & description & Hdescription & H).
  apply lift_returns in Hdescription as [Hdescription ->].
  apply bind_returns in H as (s7 & published_at & Hpublished & H).
  apply lift_returns in Hpublished as [Hpublished ->].
  apply lift_returns in H as [Hnew _].
  unfold VideoDetailsResponse.new in Hnew.
  destruct title; try discriminate;
    destruct description; try discriminate;
    destruct published_at; try discriminate.
  cbn in Hnew. inversion Hnew; subst out; clear Hnew. cbn.
  split; [reflexivity|].
  exists data, items, first, snippet. repeat split; assumption.
Qed.

(** ** Absent and empty item lists *)

Ltac expose_answer H :=
  destruct H as (?response & ?Hget & ?H200 & ?Hjson);
  unfold api_answer in *; cbn [api_request fst snd] in *.

(** C7. When the remote answers the [videos] request for an identifier with
    200 and an empty [items] list, the video-details tool fails with
    [ValueError("API Error: Video not found")], and so does the transcript
    tool once its transcript step has gone through; neither returns a
    result. *)
Theorem empty_items_video_not_found
    (w : World) (details : VideoDetailsRequest.t) (transcript : TranscriptRequest.t)
    (data : pyval) (s : trace) :
  TranscriptRequest.video_id transcript = VideoDetailsRequest.video_id details ->
  answered w (Req_youtube_get_video_details details) data ->
  getitem_str data (lit "items") = inr (PyList []) ->
  youtube_get_video_details w details s
    = (s ++ [outgoing w (Req_youtube_get_video_details details)],
       inl (ValueError (lit "API Error: Video not found")))
  /\ (forall text,
      transcript_fetched w (TranscriptRequest.video_id transcript) text ->
      get_youtube_transcript w transcript s
        = (s ++ [TranscriptFetch (TranscriptRequest.video_id transcript);
                 outgoing w (Req_get_youtube_transcript transcript)],
           inl (ValueError (lit "API Error: Video not found")))).
Proof.
  intros Hsame Hans Hitems. expose_answer Hans. split.
  - unfold youtube_get_video_details, try_except, bind.
    rewrite (make_api_request_answered w _ _ s response data Hget H200 Hjson).
    unfold lift. rewrite Hitems. reflexivity.
  - intros text (transcript_list & Hlist & Hjoin).
    unfold get_youtube_transcript, try_except, bind,
      YouTubeTranscriptApi_get_transcript, outgoing.
    cbn [api_request fst snd]. rewrite Hlist.
    unfold lift at 1. rewrite Hjoin, Hsame.
    rewrite (make_api_request_answered w _ _ _ response data Hget H200 Hjson).
    unfold lift. rewrite Hitems. cbn. now rewrite <- app_assoc.
Qed.

(** C10. When the remote answers 200 with a JSON object that has no [items]
    key, the search, channel-listing and comments tools return an empty
    sequence, while the video-details tool, and the transcript tool once its
    transcript step has gone through, fail with the wrapped [KeyError] of
    the missing key. *)
Theorem absent_items_key
    (w : World) (r : tool_request) (entries : dict) (s : trace) :
  answered w r (PyDict entries) ->
  dict_lookup (lit "items") entries = None ->
  match r with
  | Req_youtube_search_videos _ | Req_youtube_list_channel_videos _ =>
      run_tool w r s
        = (s ++ [outgoing w r], inr (Res_search {| SearchResponse.videos := [] |}))
  | Req_youtube_get_comments _ =>
      run_tool w r s
        = (s ++ [outgoing w r],
           inr (Res_comments {| CommentsResponse.comments := [] |}))
  | Req_youtube_get_video_details _ =>
      run_tool w r s
        = (s ++ [outgoing w r],
           inl (ValueError (lit "API Error: "
                              ++ str_exn w (KeyError (PyStr (lit "items"))))))
  | Req_get_youtube_transcript request =>
      forall text,
        transcript_fetched w (TranscriptRequest.video_id request) text ->
        run_tool w r s
          = (s ++ [TranscriptFetch (TranscriptRequest.video_id request);
                   outgoing w r],
             inl (ValueError (lit "API Error: "
                                ++ str_exn w (KeyError (PyStr (lit "items"))))))
  end.
Proof.
  intros Hans Hmiss.
  destruct r as [request|request|request|request|request]; expose_answer Hans.
  - intros text (transcript_list & Hlist & Hjoin).
    unfold run_tool, get_youtube_transcript, try_except, bind,
      YouTubeTranscriptApi_get_transcript.
    rewrite Hlist. unfold lift at 1. rewrite Hjoin.
    rewrite (make_api_request_answered w _ _ _ response _ Hget H200 Hjson).
    unfold lift, getitem_str. rewrite Hmiss. cbn. now rewrite <- app_assoc.
  - unfold run_tool, youtube_search_videos, try_except, bind.
    rewrite (make_api_request_answered w _ _ _ response _ Hget H200 Hjson).
    unfold lift, dict_get. rewrite Hmiss. reflexivity.
  - unfold run_tool, youtube_get_video_details, try_except, bind.
    rewrite (make_api_request_answered w _ _ _ response _ Hget H200 Hjson).
    unfold lift, getitem_str. rewrite Hmiss. reflexivity.
  - unfold run_tool, youtube_get_comments, try_except, bind.
    rewrite (make_api_request_answered w _ _ _ response _ Hget H200 Hjson).
    unfold lift, dict_get. rewrite Hmiss. reflexivity.
  - unfold run_tool, youtube_list_channel_videos, try_except, bind.
    rewrite (make_api_request_answered w _ _ _ response _ Hget H200 Hjson).
    unfold lift, dict_get. rewrite Hmiss. reflexivity.
Qed.

(** ** Search and channel listing *)

Lemma search_videos_loop_length (items : list pyval) (videos out : list dict) :
  search_videos_loop items videos = inr out ->
  List.length out = List.length videos + List.length items.
Proof.
  revert videos. induction items as [|item rest IH]; intros videos H.
  - cbn in H. inversion H. cbn. lia.
  - cbn [search_videos_loop] in H. unfold ebind in H.
    repeat match type of H with
    | match ?x with _ => _ end = _ => destruct x; [discriminate|]
    end.
    apply IH in H. rewrite H, length_app. cbn. lia.
Qed.

(** The two loops are the same text in [server.py]; they compute the same
    list. *)
Lemma list_channel_videos_loop_eq (items : list pyval) (videos : list dict) :
  list_channel_videos_loop items videos = search_videos_loop items videos.
Proof.
  revert videos. induction items as [|item rest IH]; intros videos; [reflexivity|].
  cbn [list_channel_videos_loop search_videos_loop]. unfold ebind.
  repeat match goal with
  | |- match ?x with _ => _ end = _ => destruct x; [reflexivity|]
  end.
  apply IH.
Qed.

Lemma list_channel_videos_eq (w : World) (request : SearchRequest.t) (s : trace) :
  youtube_list_channel_videos w request s = youtube_search_videos w request s.
Proof.
  unfold youtube_list_channel_videos, youtube_search_videos, try_except, bind.
  destruct (_make_api_request w _ _ s) as [s1 [e|data]]; [reflexivity|].
  destruct (lift _ s1) as [s2 [e|items]]; [reflexivity|].
  unfold lift. now rewrite list_channel_videos_loop_eq.
Qed.

Lemma list_channel_videos_call (w : World) (request : SearchRequest.t) (s : trace) :
  fst (youtube_list_channel_videos w request s)
    = s ++ [outgoing w (Req_youtube_search_videos request)].
Proof.
  unfold youtube_list_channel_videos, try_except, bind.
  rewrite make_api_request_run.
  destruct (client_get w _ _) as [e|response]; [reflexivity|].
  destruct (status_code response =? 200)%Z; [|reflexivity].
  destruct (json response) as [e|data]; [reflexivity|].
  unfold lift.
  destruct (ebind (dict_get data (lit "items") (PyList [])) _) as [e|items];
    [reflexivity|].
  destruct (list_channel_videos_loop items []); reflexivity.
Qed.

(** C3. On every request, for every behaviour of the remote service and from
    every trace, the channel-listing tool gives the same outcome (result or
    error) and leaves the same trace of calls as the search tool, both as a
    tool body and when invoked by the host with the same arguments; the one
    call it issues is the search request for the query as given. *)
Theorem list_channel_videos_is_search (w : World) :
  (forall request s,
     youtube_list_channel_videos w request s = youtube_search_videos w request s)
  /\ (forall query max_results s,
     call_tool w (Args_youtube_list_channel_videos query max_results) s
       = call_tool w (Args_youtube_search_videos query max_results) s)
  /\ (forall request s,
     fst (youtube_list_channel_videos w request s)
       = s ++ [HttpGet (lit "https://www.googleapis.com/youtube/v3/search")
                 [(lit "q", PyStr (SearchRequest.query request));
                  (lit "part", PyStr (lit "snippet"));
                  (lit "type", PyStr (lit "video"));
                  (lit "maxResults", PyInt (SearchRequest.max_results request));
                  (lit "key", Config.YOUTUBE_API_KEY w)]]).
Proof.
  split; [apply list_channel_videos_eq|]. split.
  - intros query max_results s. unfold call_tool, bind, lift, build_request, ebind.
    destruct (SearchRequest.new query max_results) as [e|request]; [reflexivity|].
    cbn [run_tool]. unfold bind. now rewrite list_channel_videos_eq.
  - intros request s. rewrite list_channel_videos_call. reflexivity.
Qed.

Lemma search_videos_returns
    (w : World) (request : SearchRequest.t) (s s' : trace) (out : SearchResponse.t) :
  youtube_search_videos w request s = (s', inr out) ->
  exists data found items,
    answered w (Req_youtube_search_videos request) data
    /\ dict_get data (lit "items") (PyList []) = inr found
    /\ iterate found = inr items
    /\ search_videos_loop items [] = inr (SearchResponse.videos out).
Proof.
  intros H. apply try_except_success in H.
  apply bind_returns in H as (s1 & data & Hdata & H).
  apply make_api_request_returns in Hdata.
  apply bind_returns in H as (s2 & items & Hitems & H).
  apply lift_returns in Hitems as [Hitems ->].
  apply bind_returns in H as (s3 & videos & Hvideos & H).
  apply lift_returns in Hvideos as [Hvideos ->].
  unfold ret in H. inversion H; subst; clear H.
  unfold ebind in Hitems.
  destruct (dict_get data (lit "items") (PyList [])) as [e|found] eqn:Hfound;
    [discriminate|].
  exists data, found, items. cbn. auto.
Qed.

(** C2, amended. When the search tool or the channel-listing tool returns,
    its sequence has exactly one entry per element of the [items] the remote
    answered with: nothing is truncated, so the sequence is within the
    requested limit whenever the remote kept to it. *)
Theorem search_returns_one_entry_per_item
    (w : World) (tool : World -> SearchRequest.t -> M SearchResponse.t)
    (request : SearchRequest.t) (s s' : trace) (out : SearchResponse.t) :
  tool = youtube_search_videos \/ tool = youtube_list_channel_videos ->
  tool w request s = (s', inr out) ->
  exists data found items,
    answered w (Req_youtube_search_videos request) data
    /\ dict_get data (lit "items") (PyList []) = inr found
    /\ iterate found = inr items
    /\ List.length (SearchResponse.videos out) = List.length items
    /\ ((Z.of_nat (List.length items) <= SearchRequest.max_results request)%Z ->
        (Z.of_nat (List.length (SearchResponse.videos out))
           <= SearchRequest.max_results request)%Z).
Proof.
  intros Htool H.
  assert (Hsearch : youtube_search_videos w request s = (s', inr out)).
  { destruct Htool as [->| ->]; [exact H|]. now rewrite <- list_channel_videos_eq. }
  apply search_videos_returns in Hsearch
    as (data & found & items & Hans & Hfound & Hiter & Hloop).
  apply search_videos_loop_length in Hloop. cbn in Hloop.
  exists data, found, items. repeat split; try assumption.
  now rewrite Hloop.
Qed.

(** ** Transcript *)

Lemma fragment_texts_spec (items : list pyval) (texts : list pystr) :
  Forall2 text_of items texts -> fragment_texts items = inr (map PyStr texts).
Proof.
  induction 1 as [|item t items texts Ht _ IH]; [reflexivity|].
  cbn [fragment_texts]. unfold text_of in Ht. rewrite Ht. cbn [ebind].
  rewrite IH. reflexivity.
Qed.

Lemma join_items_strings (i : nat) (texts : list pystr) :
  join_items i (map PyStr texts) = inr texts.
Proof.
  revert i. induction texts as [|t texts IH]; intros i; [reflexivity|].
  cbn. now rewrite IH.
Qed.

Lemma joined_text_spec (items : list pyval) (texts : list pystr) :
  Forall2 text_of items texts ->
  joined_text (PyList items) = inr (join (lit " ") texts).
Proof.
  intros H. unfold joined_text. cbn [iterate ebind].
  rewrite (fragment_texts_spec _ _ H). cbn [ebind].
  unfold str_join. now rewrite join_items_strings.
Qed.

(** C4. When the collaborator returns the list of fragments [items], whose
    [text] fields are the strings [texts] in that order, the transcript step
    goes through with those strings joined by single spaces, and that is the
    [transcript] of every result the tool returns. *)
Theorem transcript_is_joined_fragments
    (w : World) (request : TranscriptRequest.t)
    (items : list pyval) (texts : list pystr) :
  get_transcript w (TranscriptRequest.video_id request) = inr (PyList items) ->
  Forall2 text_of items texts ->
  transcript_fetched w (TranscriptRequest.video_id request) (join (lit " ") texts)
  /\ forall s s' out,
       get_youtube_transcript w request s = (s', inr out) ->
       TranscriptResponse.transcript out = join (lit " ") texts.
Proof.
  intros Hlist Htexts. split.
  { exists (PyList items). split; [exact Hlist | exact (joined_text_spec _ _ Htexts)]. }
  intros s s' out H. unfold get_youtube_transcript in H.
  apply bind_returns in H as (s1 & transcript & Hfirst & H).
  apply try_except_success in Hfirst.
  unfold bind, YouTubeTranscriptApi_get_transcript, lift in Hfirst.
  rewrite Hlist, (joined_text_spec _ _ Htexts) in Hfirst.
  inversion Hfirst; subst; clear Hfirst.
  apply bind_returns in H as (s2 & [video_title video_description] & _ & H).
  apply lift_returns in H as [Hnew _].
  unfold TranscriptResponse.new in Hnew.
  destruct (check_optional_str "video_title" video_title);
    destruct (check_optional_str "video_description" video_description);
    try discriminate.
  inversion Hnew. reflexivity.
Qed.

(** ** Request validation *)

Lemma short_identifier_rejected (v : pystr) :
  List.length v <> 11 ->
  negb (truthy (PyStr v)) || negb (Nat.eqb (List.length v) 11) = true.
Proof.
  intros H. apply Nat.eqb_neq in H. rewrite H. apply orb_true_r.
Qed.

Lemma blank_query_rejected (q : pystr) :
  blank q ->
  SearchRequest.validate_query q = inl (ValueError (lit "query cannot be empty")).
Proof.
  intros H. unfold SearchRequest.validate_query.
  rewrite (strip_blank q H). cbn. now rewrite orb_true_r.
Qed.

Lemma out_of_range_rejected (field : string) (lo hi z : Z) :
  (z < lo \/ hi < z)%Z -> exists es, check_range field lo hi z = inl es.
Proof.
  intros H. unfold check_range.
  destruct (z <? lo)%Z eqn:E1; [eauto|].
  destruct (hi <? z)%Z eqn:E2; [eauto|].
  apply Z.ltb_ge in E1, E2. lia.
Qed.

Lemma search_request_rejected (q : pystr) (m : option Z) :
  blank q \/ out_of_range 1 50 m ->
  exists errors, SearchRequest.new q m = inl (ValidationError "SearchRequest" errors).
Proof.
  intros H. unfold SearchRequest.new. destruct H as [H|(z & -> & H)].
  - rewrite (blank_query_rejected q H). cbn [after_validator]. eauto.
  - destruct (out_of_range_rejected "max_results" 1 50 z H) as (es & ->).
    destruct (after_validator "query" (SearchRequest.validate_query q)); eauto.
Qed.

(** C5. An invocation with an identifier whose length is not 11 (the empty
    one included), with a blank query, or with a limit outside 1..50 for the
    search tools and 1..100 for the comments tool, fails with the schema's
    validation error and leaves the trace of outbound calls as it was: no
    call to the remote service or to the transcript collaborator is
    issued. *)
Theorem invalid_input_rejected_before_network
    (w : World) (a : tool_args) (s : trace) :
  invalid_args a ->
  exists model errors, call_tool w a s = (s, inl (ValidationError model errors)).
Proof.
  intros H. unfold call_tool, bind, lift, build_request.
  destruct a as [v|q m|v|v m|q m]; cbn [invalid_args] in H.
  - exists "TranscriptRequest"%string.
    unfold TranscriptRequest.new, TranscriptRequest.validate_video_id.
    rewrite (short_identifier_rejected v H). cbn. eauto.
  - destruct (search_request_rejected q m H) as (errors & ->). cbn. eauto.
  - exists "VideoDetailsRequest"%string.
    unfold VideoDetailsRequest.new, VideoDetailsRequest.validate_video_id.
    rewrite (short_identifier_rejected v H). cbn. eauto.
  - exists "CommentsRequest"%string.
    unfold CommentsRequest.new, CommentsRequest.validate_video_id.
    destruct H as [H|(z & -> & H)].
    + rewrite (short_identifier_rejected v H). cbn. eauto.
    + destruct (out_of_range_rejected "max_results" 1 100 z H) as (es & ->).
      destruct (after_validator "video_id" _); cbn; eauto.
  - destruct (search_request_rejected q m H) as (errors & ->). cbn. eauto.
Qed.

(** ** The error wrapper *)




(** The result record of the transcript tool is built after its [try]
    blocks: when the remote sends a title that is not a string, pydantic's
    error leaves the tool as it is. *)
Lemma transcript_record_failure_escapes :
  snd (get_youtube_transcript numeric_title_world
         {| TranscriptRequest.video_id := rick_id |} [])
    = inl (ValidationError "TranscriptResponse"
             [("video_title"%string, None, WrongType TStr TInt)]).
Proof. reflexivity. Qed.

(** A request the schema rejects never reaches a tool body: the invocation
    fails with the schema's own error, which is not in the wrapped shape. *)
Lemma schema_rejection_is_not_wrapped
    (w : World) (a : tool_args) (s : trace) (e : exn) :
  build_request a = inl e ->
  call_tool w a s = (s, inl e) /\ ~ wrapped w e.
Proof.
  intros H. split.
  - unfold call_tool, bind, lift. now rewrite H.
  - intros (cause & ->). unfold build_request, ebind in H.
    destruct a as [v|q m|v|v m|q m].
    + unfold TranscriptRequest.new in H.
      destruct (after_validator _ _); discriminate.
    + unfold SearchRequest.new in H.
      destruct (after_validator _ _); destruct m as [z|];
        try destruct (check_range _ _ _ _); discriminate.
    + unfold VideoDetailsRequest.new in H.
      destruct (after_validator _ _); discriminate.
    + unfold CommentsRequest.new in H.
      destruct (after_validator _ _); destruct m as [z|];
        try destruct (check_range _ _ _ _); discriminate.
    + unfold SearchRequest.new in H.
      destruct (after_validator _ _); destruct m as [z|];
        try destruct (check_range _ _ _ _); discriminate.
Qed.

(** * The scenarios of the specification, run on the model *)

(** C6 at two answers: a 200 whose body is returned, a 403 whose status and
    body text appear in the message. *)
Lemma make_api_request_contract_witness :
  snd (_make_api_request rick_world (lit "https://www.googleapis.com/youtube/v3/videos")
         [(lit "id", PyStr rick_id)] []) = inr rick_data
  /\ exists msg,
       snd (_make_api_request forbidden_world
              (lit "https://www.googleapis.com/youtube/v3/videos")
              [(lit "id", PyStr rick_id)] []) = inl (ValueError msg)
       /\ contains msg (lit "403") /\ contains msg (lit "quotaExceeded").
Proof.
  split.
  - apply (proj1 (make_api_request_contract rick_world _ _ []
                    {| status_code := 200; text := []; json := inr rick_data |}
                    eq_refl)); reflexivity.
  - apply (proj2 (make_api_request_contract forbidden_world _ _ [] forbidden eq_refl)).
    discriminate.
Defined.

(** C8 at a process without the credential. *)
Lemma startup_fails_without_credential_witness :
  getenv no_credential_world (lit "YOUTUBE_API_KEY") = None
  /\ startup no_credential_world
       = StartupFailed
           (ValueError (Config.error_msg [lit "YOUTUBE_API_KEY is required"]))
  /\ forall tools, startup no_credential_world <> Serving tools.
Proof.
  split; [reflexivity|].
  pose proof (startup_fails_without_credential no_credential_world eq_refl)
    as (Hfail & _ & Hnone & _).
  split; assumption.
Defined.

(** C9 on the scenario: the identifier comes from the request although the
    item carries another one. *)
Lemma details_echo_id_and_copy_snippet_witness :
  snd (youtube_get_video_details rick_world
         {| VideoDetailsRequest.video_id := rick_id |} []) = inr rick_details
  /\ VideoDetailsResponse.video_id rick_details = rick_id
  /\ VideoDetailsResponse.title rick_details
       = lit "Rick Astley - Never Gonna Give You Up".
Proof.
  split; [reflexivity|].
  pose proof (details_echo_id_and_copy_snippet rick_world
                {| VideoDetailsRequest.video_id := rick_id |} []
                (fst (youtube_get_video_details rick_world
                        {| VideoDetailsRequest.video_id := rick_id |} []))
                rick_details eq_refl) as (Hid & _).
  split; [exact Hid | reflexivity].
Defined.

(** C7 on an answer with an empty list of items. *)
Lemma empty_items_video_not_found_witness :
  snd (youtube_get_video_details empty_items_world
         {| VideoDetailsRequest.video_id := rick_id |} [])
    = inl (ValueError (lit "API Error: Video not found"))
  /\ snd (get_youtube_transcript empty_items_world
            {| TranscriptRequest.video_id := rick_id |} [])
    = inl (ValueError (lit "API Error: Video not found")).
Proof.
  pose proof (empty_items_video_not_found empty_items_world
                {| VideoDetailsRequest.video_id := rick_id |}
                {| TranscriptRequest.video_id := rick_id |}
                empty_items_data [] eq_refl) as H.
  destruct H as (Hdetails & Htranscript).
  - exists {| status_code := 200; text := []; json := inr empty_items_data |}.
    repeat split.
  - reflexivity.
  - split.
    + now rewrite Hdetails.
    + rewrite (Htranscript (lit "Never gonna give")); [reflexivity|].
      exists (PyList rick_fragments). split; reflexivity.
Defined.

(** C10 on an answer without the key: search returns nothing, details
    fails on the missing key. *)
Lemma absent_items_key_witness :
  snd (run_tool no_items_world (Req_youtube_search_videos cats_request) [])
    = inr (Res_search {| SearchResponse.videos := [] |})
  /\ snd (run_tool no_items_world
            (Req_youtube_get_video_details
               {| VideoDetailsRequest.video_id := rick_id |}) [])
    = inl (ValueError (lit "API Error: 'items'")).
Proof.
  split.
  - rewrite (absent_items_key no_items_world (Req_youtube_search_videos cats_request)
               [(lit "kind", PyStr (lit "youtube#videoListResponse"))] []).
    + reflexivity.
    + eexists. repeat split.
    + reflexivity.
  - rewrite (absent_items_key no_items_world
               (Req_youtube_get_video_details
                  {| VideoDetailsRequest.video_id := rick_id |})
               [(lit "kind", PyStr (lit "youtube#videoListResponse"))] []).
    + reflexivity.
    + eexists. repeat split.
    + reflexivity.
Defined.

(** C2 as stated fails on the scenario of the specification: limit 3, five
    items answered, five entries returned. *)
Lemma search_exceeds_limit :
  snd (youtube_search_videos five_cats_world cats_request []) = inr five_cats_videos
  /\ SearchRequest.max_results cats_request = 3%Z
  /\ List.length (SearchResponse.videos five_cats_videos) = 5
  /\ ~ (Z.of_nat (List.length (SearchResponse.videos five_cats_videos))
          <= SearchRequest.max_results cats_request)%Z.
Proof.
  split; [reflexivity|]. split; [reflexivity|]. split; [reflexivity|].
  cbn. lia.
Qed.

(** C2, amended, on the same scenario: five items, five entries. *)
Lemma search_returns_one_entry_per_item_witness :
  snd (youtube_search_videos five_cats_world cats_request []) = inr five_cats_videos
  /\ exists data found items,
       answered five_cats_world (Req_youtube_search_videos cats_request) data
       /\ dict_get data (lit "items") (PyList []) = inr found
       /\ iterate found = inr items
       /\ List.length (SearchResponse.videos five_cats_videos) = List.length items
       /\ ((Z.of_nat (List.length items) <= SearchRequest.max_results cats_request)%Z ->
           (Z.of_nat (List.length (SearchResponse.videos five_cats_videos))
              <= SearchRequest.max_results cats_request)%Z).
Proof.
  split; [reflexivity|].
  exact (search_returns_one_entry_per_item five_cats_world youtube_search_videos
           cats_request []
           (fst (youtube_search_videos five_cats_world cats_request []))
           five_cats_videos (or_introl eq_refl) eq_refl).
Defined.

(** C4 on the scenario of the specification. *)
Lemma transcript_is_joined_fragments_witness :
  snd (get_youtube_transcript rick_world
         {| TranscriptRequest.video_id := rick_id |} []) = inr rick_transcript
  /\ TranscriptResponse.transcript rick_transcript = lit "Never gonna give".
Proof.
  split; [reflexivity|].
  destruct (transcript_is_joined_fragments rick_world
              {| TranscriptRequest.video_id := rick_id |}
              rick_fragments [lit "Never"; lit "gonna"; lit "give"] eq_refl)
    as [_ Hout].
  - repeat constructor.
  - apply (Hout []
             (fst (get_youtube_transcript rick_world
                     {| TranscriptRequest.video_id := rick_id |} []))).
    reflexivity.
Defined.

(** C5 on the five-character identifier [short]. *)
Lemma invalid_input_rejected_before_network_witness :
  invalid_args (Args_youtube_get_comments (lit "short") (Some 20%Z))
  /\ exists model errors,
       call_tool rick_world (Args_youtube_get_comments (lit "short") (Some 20%Z)) []
         = ([], inl (ValidationError model errors)).
Proof.
  assert (H : invalid_args (Args_youtube_get_comments (lit "short") (Some 20%Z))).
  { left. cbn. discriminate. }
  split; [exact H|].
  exact (invalid_input_rejected_before_network rick_world _ [] H).
Defined.



(** * Further properties of the request records *)

(** ** Stripping *)

Lemma lstrip_head (s : pystr) :
  lstrip s = [] \/ exists c rest, lstrip s = c :: rest /\ isspace c = false.
Proof.
  induction s as [|c s IH]; [now left|].
  cbn. destruct (isspace c) eqn:E; [exact IH|]. right. now exists c, s.
Qed.

Lemma lstrip_fixed (c : N) (rest : pystr) :
  isspace c = false -> lstrip (c :: rest) = c :: rest.
Proof. intros H. cbn. now rewrite H. Qed.

Lemma lstrip_empty_blank (s : pystr) : lstrip s = [] -> forallb isspace s = true.
Proof.
  induction s as [|c s IH]; [reflexivity|].
  cbn. destruct (isspace c); [exact IH | discriminate].
Qed.

Lemma lstrip_snoc (s : pystr) (c : N) :
  isspace c = false -> lstrip (s ++ [c]) = lstrip s ++ [c].
Proof.
  intros H. induction s as [|d s IH]; cbn.
  - now rewrite H.
  - destruct (isspace d); [exact IH | reflexivity].
Qed.

Lemma blank_rev (s : pystr) : forallb isspace (rev s) = forallb isspace s.
Proof.
  induction s as [|c s IH]; [reflexivity|].
  cbn. rewrite forallb_app, IH. cbn. rewrite andb_true_r. apply andb_comm.
Qed.

(** Stripping the right end keeps a first character that is not
    whitespace. *)
Lemma rstrip_cons (c : N) (rest : pystr) :
  isspace c = false -> exists rest', rstrip (c :: rest) = c :: rest'.
Proof.
  intros H. unfold rstrip. cbn [rev]. rewrite (lstrip_snoc _ _ H).
  rewrite rev_app_distr. cbn. eauto.
Qed.

Lemma rstrip_last (s : pystr) :
  rstrip s = [] \/ exists init c, rstrip s = init ++ [c] /\ isspace c = false.
Proof.
  unfold rstrip. destruct (lstrip_head (rev s)) as [->|(c & rest & -> & H)].
  - now left.
  - right. exists (rev rest), c. cbn. auto.
Qed.

Lemma strip_empty_blank (q : pystr) : strip q = [] -> blank q.
Proof.
  unfold strip, blank. intros H.
  destruct (lstrip_head q) as [E|(c & rest & E & Hc)].
  - now apply lstrip_empty_blank.
  - rewrite E in H. destruct (rstrip_cons c rest Hc) as (rest' & E').
    rewrite E' in H. discriminate.
Qed.

Lemma strip_trimmed (q : pystr) : strip q <> [] -> trimmed (strip q).
Proof.
  intros Hne. split.
  - unfold strip in *. destruct (lstrip_head q) as [E|(c & rest & E & Hc)].
    + rewrite E in Hne. now contradiction Hne.
    + rewrite E. destruct (rstrip_cons c rest Hc) as (rest' & ->). now exists c, rest'.
  - unfold strip in *. destruct (rstrip_last (lstrip q)) as [E|H]; [|exact H].
    now contradiction Hne.
Qed.

Lemma trimmed_strip (q : pystr) : trimmed q -> strip q = q.
Proof.
  intros [(c & rest & -> & Hc) (init & d & E & Hd)].
  unfold strip. rewrite (lstrip_fixed c rest Hc). rewrite E.
  unfold rstrip. rewrite rev_app_distr. cbn [rev app].
  rewrite (lstrip_fixed d (rev init) Hd). cbn. now rewrite rev_involutive.
Qed.

Lemma trimmed_nonempty (q : pystr) : trimmed q -> q <> [].
Proof. intros [(c & rest & -> & _) _]. discriminate. Qed.

(** ** Acceptance *)

Lemma video_id_accepted (v : pystr) :
  List.length v = 11 ->
  negb (truthy (PyStr v)) || negb (Nat.eqb (List.length v) 11) = false.
Proof.
  intros H. rewrite H. destruct v; [discriminate|reflexivity].
Qed.

Lemma video_id_verdict (v : pystr) :
  negb (truthy (PyStr v)) || negb (Nat.eqb (List.length v) 11)
    = negb (Nat.eqb (List.length v) 11).
Proof. destruct v; reflexivity. Qed.

Lemma validate_query_verdict (q : pystr) :
  (blank q /\ SearchRequest.validate_query q
                = inl (ValueError (lit "query cannot be empty")))
  \/ (~ blank q /\ trimmed (strip q)
      /\ SearchRequest.validate_query q = inr (strip q)).
Proof.
  assert (Hcase : strip q = [] \/ strip q <> []).
  { destruct (strip q); [now left | right; discriminate]. }
  destruct Hcase as [E|Hne].
  - left. pose proof (strip_empty_blank q E) as Hb.
    split; [exact Hb | exact (blank_query_rejected q Hb)].
  - right. split; [|split].
    + intros Hb. apply Hne, strip_blank, Hb.
    + apply strip_trimmed, Hne.
    + unfold SearchRequest.validate_query.
      destruct q as [|c q]; [now contradiction Hne|].
      destruct (strip (c :: q)); [now contradiction Hne | reflexivity].
Qed.

Lemma check_range_verdict (field : string) (lo hi z : Z) :
  ((lo <= z <= hi)%Z /\ check_range field lo hi z = inr z)
  \/ ((z < lo \/ hi < z)%Z /\ exists es, check_range field lo hi z = inl es).
Proof.
  unfold check_range.
  destruct (z <? lo)%Z eqn:E1; [right; split; [apply Z.ltb_lt in E1; lia | eauto]|].
  destruct (hi <? z)%Z eqn:E2; [right; split; [apply Z.ltb_lt in E2; lia | eauto]|].
  left. apply Z.ltb_ge in E1, E2. split; [lia | reflexivity].
Qed.

Lemma limit_verdict (field : string) (lo hi default : Z) (m : option Z) :
  (lo <= default <= hi)%Z ->
  (out_of_range lo hi m
   /\ exists es, match m with
                 | Some z => check_range field lo hi z
                 | None => inr default
                 end = inl es)
  \/ (~ out_of_range lo hi m
      /\ exists z, (lo <= z <= hi)%Z
           /\ match m with
              | Some z => check_range field lo hi z
              | None => inr default
              end = inr z
           /\ (m = Some z \/ m = None /\ z = default)).
Proof.
  intros Hd. destruct m as [z|].
  - destruct (check_range_verdict field lo hi z) as [[Hin E]|[Hout E]].
    + right. split.
      * intros (z' & Hz & Hbad). inversion Hz; subst. lia.
      * exists z. auto.
    + left. split; [now exists z | exact E].
  - right. split.
    + intros (z' & Hz & _). discriminate.
    + exists default. auto.
Qed.

Lemma trimmed_query_accepted (q : pystr) :
  trimmed q -> SearchRequest.validate_query q = inr q.
Proof.
  intros H. pose proof (trimmed_strip q H) as E.
  destruct (validate_query_verdict q) as [[Hb _]|(_ & _ & Hv)].
  - apply strip_blank in Hb. rewrite E in Hb. now apply trimmed_nonempty in H.
  - now rewrite E in Hv.
Qed.

Lemma check_range_accepted (field : string) (lo hi z : Z) :
  (lo <= z <= hi)%Z -> check_range field lo hi z = inr z.
Proof.
  intros H. destruct (check_range_verdict field lo hi z) as [[_ E]|[Hbad _]];
    [exact E | lia].
Qed.

Lemma search_request_accepted (q : pystr) (m : option Z) :
  ~ (blank q \/ out_of_range 1 50 m) ->
  exists z,
    SearchRequest.new q m
      = inr {| SearchRequest.query := strip q; SearchRequest.max_results := z |}
    /\ trimmed (strip q) /\ (1 <= z <= 50)%Z.
Proof.
  intros Hok. unfold SearchRequest.new.
  destruct (validate_query_verdict q) as [[Hb _]|(_ & Htrim & ->)]; [tauto|].
  destruct (limit_verdict "max_results" 1 50 5 m ltac:(lia))
    as [[Hbad _]|(_ & z & Hz & -> & _)]; [tauto|].
  cbn. eauto.
Qed.

Lemma comments_request_verdict (v : pystr) (m : option Z) :
  ((List.length v <> 11 \/ out_of_range 1 100 m)
   /\ exists errors,
        CommentsRequest.new v m = inl (ValidationError "CommentsRequest" errors))
  \/ (~ (List.length v <> 11 \/ out_of_range 1 100 m)
      /\ exists z,
           CommentsRequest.new v m
             = inr {| CommentsRequest.video_id := v;
                      CommentsRequest.max_results := z |}
           /\ List.length v = 11 /\ (1 <= z <= 100)%Z).
Proof.
  unfold CommentsRequest.new, CommentsRequest.validate_video_id.
  rewrite video_id_verdict.
  destruct (Nat.eqb (List.length v) 11) eqn:E;
    destruct (limit_verdict "max_results" 1 100 20 m ltac:(lia))
      as [[Hbad (es & ->)]|(Hgood & z & Hz & -> & _)]; cbn.
  - left. eauto.
  - apply Nat.eqb_eq in E. right. split; [|eauto]. intros [H|H]; tauto.
  - left. eauto.
  - apply Nat.eqb_neq in E. left. eauto.
Qed.

(** What the schema layer does with any arguments: it rejects the invalid
    ones, and turns the others into a record that meets the data model and
    that is left unchanged by a second validation. *)
Lemma build_request_verdict (a : tool_args) :
  (invalid_args a
   /\ exists model errors, build_request a = inl (ValidationError model errors))
  \/ (~ invalid_args a
      /\ exists r, build_request a = inr r /\ request_ok r
           /\ build_request (args_of r) = inr r).
Proof.
  destruct a as [v|q m|v|v m|q m]; cbn [invalid_args build_request].
  - unfold TranscriptRequest.new, TranscriptRequest.validate_video_id.
    rewrite video_id_verdict.
    destruct (Nat.eqb (List.length v) 11) eqn:E; cbn.
    + apply Nat.eqb_eq in E. right. split; [lia|]. eexists. split; [reflexivity|].
      split; [exact E|]. cbn.
      unfold TranscriptRequest.new, TranscriptRequest.validate_video_id.
      now rewrite (video_id_accepted v E).
    + apply Nat.eqb_neq in E. left. eauto.
  - destruct (validate_query_verdict q) as [[Hb _]|(Hnb & _)].
    + left. split; [now left|].
      destruct (search_request_rejected q m (or_introl Hb)) as (es & ->). cbn. eauto.
    + destruct (limit_verdict "max_results" 1 50 5 m ltac:(lia)) as [[Hbad _]|(Hgood & _)].
      * left. split; [now right|].
        destruct (search_request_rejected q m (or_intror Hbad)) as (es & ->). cbn. eauto.
      * right. assert (Hok : ~ (blank q \/ out_of_range 1 50 m)) by tauto.
        split; [exact Hok|].
        destruct (search_request_accepted q m Hok) as (z & -> & Htrim & Hz).
        cbn. eexists. split; [reflexivity|]. split; [now split|]. cbn.
        unfold SearchRequest.new.
        rewrite (trimmed_query_accepted _ Htrim), (check_range_accepted _ _ _ _ Hz).
        reflexivity.
  - unfold VideoDetailsRequest.new, VideoDetailsRequest.validate_video_id.
    rewrite video_id_verdict.
    destruct (Nat.eqb (List.length v) 11) eqn:E; cbn.
    + apply Nat.eqb_eq in E. right. split; [lia|]. eexists. split; [reflexivity|].
      split; [exact E|]. cbn.
      unfold VideoDetailsRequest.new, VideoDetailsRequest.validate_video_id.
      now rewrite (video_id_accepted v E).
    + apply Nat.eqb_neq in E. left. eauto.
  - destruct (comments_request_verdict v m) as [[Hbad (es & ->)]|(Hok & z & -> & Hv & Hz)].
    + left. cbn. eauto.
    + right. split; [exact Hok|]. cbn. eexists. split; [reflexivity|].
      split; [now split|]. cbn.
      unfold CommentsRequest.new, CommentsRequest.validate_video_id.
      rewrite (video_id_accepted v Hv), (check_range_accepted _ _ _ _ Hz).
      reflexivity.
  - destruct (validate_query_verdict q) as [[Hb _]|(Hnb & _)].
    + left. split; [now left|].
      destruct (search_request_rejected q m (or_introl Hb)) as (es & ->). cbn. eauto.
    + destruct (limit_verdict "max_results" 1 50 5 m ltac:(lia)) as [[Hbad _]|(Hgood & _)].
      * left. split; [now right|].
        destruct (search_request_rejected q m (or_intror Hbad)) as (es & ->). cbn. eauto.
      * right. assert (Hok : ~ (blank q \/ out_of_range 1 50 m)) by tauto.
        split; [exact Hok|].
        destruct (search_request_accepted q m Hok) as (z & -> & Htrim & Hz).
        cbn. eexists. split; [reflexivity|]. split; [now split|]. cbn.
        unfold SearchRequest.new.
        rewrite (trimmed_query_accepted _ Htrim), (check_range_accepted _ _ _ _ Hz).
        reflexivity.
Qed.

(** X1. The schema layer accepts exactly the arguments that are not
    invalid: an 11-character identifier, a query with a character that is
    not whitespace, a limit within the declared range or omitted. *)
Theorem valid_arguments_are_accepted (a : tool_args) :
  (exists r, build_request a = inr r) <-> ~ invalid_args a.
Proof.
  destruct (build_request_verdict a)
    as [(Hbad & model & errors & E)|(Hok & r & E & _)]; split.
  - intros (r & Hr). rewrite E in Hr. discriminate.
  - tauto.
  - intros _. exact Hok.
  - intros _. now exists r.
Qed.

(** X2. A request record that passed validation meets the data model: its
    identifier has 11 characters, its query is not empty and has no
    whitespace at either end, its limit lies within 1..50 (search, channel
    listing) or 1..100 (comments), the defaults included. *)
Theorem validated_request_meets_data_model (a : tool_args) (r : tool_request) :
  build_request a = inr r -> request_ok r.
Proof.
  intros H. destruct (build_request_verdict a)
    as [(_ & model & errors & E)|(_ & r' & E & Hok & _)]; rewrite E in H.
  - discriminate.
  - now inversion H; subst.
Qed.

(** X3. Validation is idempotent: the fields of a validated request, passed
    again as arguments, are accepted and give the same record (the query is
    already stripped, the limit already in range). *)
Theorem validation_is_idempotent (a : tool_args) (r : tool_request) :
  build_request a = inr r -> build_request (args_of r) = inr r.
Proof.
  intros H. destruct (build_request_verdict a)
    as [(_ & model & errors & E)|(_ & r' & E & _ & Hagain)]; rewrite E in H.
  - discriminate.
  - now inversion H; subst.
Qed.

(** * Further properties of the transport helper and of the calls issued *)

Lemma pystr_eqb_refl (k : pystr) : pystr_eqb k k = true.
Proof. unfold pystr_eqb. destruct (list_eq_dec N.eq_dec k k); congruence. Qed.

Lemma pystr_eqb_neq (k k' : pystr) : k <> k' -> pystr_eqb k k' = false.
Proof. unfold pystr_eqb. destruct (list_eq_dec N.eq_dec k k'); congruence. Qed.

Lemma pystr_eqb_true (k k' : pystr) : pystr_eqb k k' = true -> k = k'.
Proof. unfold pystr_eqb. destruct (list_eq_dec N.eq_dec k k'); congruence. Qed.

Lemma dict_lookup_set_same (k : pystr) (v : pyval) (d : dict) :
  dict_lookup k (dict_set k v d) = Some v.
Proof.
  induction d as [|[k' v'] d IH]; cbn.
  - now rewrite pystr_eqb_refl.
  - destruct (pystr_eqb k k') eqn:E; cbn; rewrite E; [reflexivity | exact IH].
Qed.

Lemma dict_lookup_set_other (k k0 : pystr) (v : pyval) (d : dict) :
  k0 <> k -> dict_lookup k0 (dict_set k v d) = dict_lookup k0 d.
Proof.
  intros Hne. induction d as [|[k' v'] d IH]; cbn.
  - now rewrite (pystr_eqb_neq k0 k Hne).
  - destruct (pystr_eqb k k') eqn:E; cbn.
    + apply pystr_eqb_true in E. subst k'. now rewrite (pystr_eqb_neq k0 k Hne).
    + destruct (pystr_eqb k0 k'); [reflexivity | exact IH].
Qed.

(** X4. Whatever parameters the caller passes and whatever the remote
    answers, the helper issues exactly one GET, to the URL it was given; the
    [key] parameter of that GET is the configured credential, also when the
    caller had passed a [key] of its own, and every other parameter is the
    caller's. *)
Theorem make_api_request_attaches_credential
    (w : World) (url : pystr) (params : dict) (s : trace) :
  exists sent,
    fst (_make_api_request w url params s) = s ++ [HttpGet url sent]
    /\ dict_lookup (lit "key") sent = Some (Config.YOUTUBE_API_KEY w)
    /\ forall k, k <> lit "key" -> dict_lookup k sent = dict_lookup k params.
Proof.
  exists (dict_set (lit "key") (Config.YOUTUBE_API_KEY w) params).
  rewrite make_api_request_run. split; [reflexivity|]. split.
  - apply dict_lookup_set_same.
  - intros k Hk. now apply dict_lookup_set_other.
Qed.

(** The outcome of the helper does not depend on the calls made before. *)
Lemma make_api_request_split (w : World) (url : pystr) (params : dict) (s : trace) :
  _make_api_request w url params s =
    (s ++ [HttpGet url (dict_set (lit "key") (Config.YOUTUBE_API_KEY w) params)],
     snd (_make_api_request w url params [])).
Proof. now rewrite !make_api_request_run. Qed.

Lemma silent_lift {A} (r : exn + A) : silent (lift r).
Proof. intros s. reflexivity. Qed.

Lemma silent_ret {A} (a : A) : silent (ret a).
Proof. intros s. reflexivity. Qed.

Lemma silent_raise {A} (e : exn) : silent (@raise A e).
Proof. intros s. reflexivity. Qed.

Lemma silent_bind {A B} (m : M A) (k : A -> M B) :
  silent m -> (forall a, silent (k a)) -> silent (bind m k).
Proof.
  intros Hm Hk s. unfold bind. specialize (Hm s).
  destruct (m s) as [s1 [e|a]]; cbn in *; [exact Hm|].
  rewrite Hk. exact Hm.
Qed.

Lemma silent_if {A} (b : bool) (m1 m2 : M A) :
  silent m1 -> silent m2 -> silent (if b then m1 else m2).
Proof. now destruct b. Qed.

Ltac prove_silent :=
  repeat first
    [ apply silent_lift | apply silent_ret | apply silent_raise
    | apply silent_if | apply silent_bind | intro ].

Lemma fst_try_except {A} (w : World) (m : M A) (s : trace) :
  fst (try_except w m s) = fst (m s).
Proof. unfold try_except. now destruct (m s) as [s1 [e|a]]. Qed.

Lemma fst_bind_silent {A B} (m : M A) (k : A -> M B) (s : trace) :
  (forall a, silent (k a)) -> fst (bind m k s) = fst (m s).
Proof.
  intros Hk. unfold bind. destruct (m s) as [s1 [e|a]]; [reflexivity|].
  now rewrite Hk.
Qed.

(** A tool body made of one guarded GET followed by steps that issue no
    call. *)
Lemma guarded_get_trace {A B} (w : World) (url : pystr) (params : dict)
    (k : pyval -> M A) (tag : A -> B) (s : trace) :
  (forall data, silent (k data)) ->
  fst (bind (try_except w (bind (_make_api_request w url params) k))
         (fun out => ret (tag out)) s)
    = s ++ [HttpGet url (dict_set (lit "key") (Config.YOUTUBE_API_KEY w) params)].
Proof.
  intros Hk. rewrite fst_bind_silent by (intro; apply silent_ret).
  rewrite fst_try_except, fst_bind_silent by exact Hk.
  now rewrite make_api_request_run.
Qed.

Lemma guarded_get_failure {A B} (w : World) (url : pystr) (params : dict)
    (k : pyval -> M A) (tag : A -> B) (s : trace) (e : exn) :
  snd (_make_api_request w url params []) = inl e ->
  snd (bind (try_except w (bind (_make_api_request w url params) k))
         (fun out => ret (tag out)) s)
    = inl (ValueError (lit "API Error: " ++ str_exn w e)).
Proof.
  intros H. unfold bind at 1, try_except, bind.
  now rewrite make_api_request_split, H.
Qed.

(** The transcript tool once its first step has gone through: what is left
    is its guarded GET and the construction of the result. *)
Lemma transcript_after_fetch
    (w : World) (request : TranscriptRequest.t) (text : pystr) (s : trace) :
  transcript_fetched w (TranscriptRequest.video_id request) text ->
  get_youtube_transcript w request s =
    bind (try_except w (
            data <- _make_api_request w
                      (lit "https://www.googleapis.com/youtube/v3/videos")
                      [(lit "id", PyStr (TranscriptRequest.video_id request));
                       (lit "part", PyStr (lit "snippet"))] ;;
            items <- lift (getitem_str data (lit "items")) ;;
            if negb (truthy items) then raise (ValueError (lit "Video not found")) else
            first <- lift (getitem_int items 0) ;;
            snippet <- lift (getitem_str first (lit "snippet")) ;;
            video_title <- lift (getitem_str snippet (lit "title")) ;;
            video_description <- lift (getitem_str snippet (lit "description")) ;;
            ret (video_title, video_description)))
         (fun '(video_title, video_description) =>
            lift (TranscriptResponse.new text video_title video_description))
         (s ++ [TranscriptFetch (TranscriptRequest.video_id request)]).
Proof.
  intros (transcript_list & Hlist & Hjoin).
  unfold get_youtube_transcript.
  unfold bind at 1, try_except at 1, bind at 1, YouTubeTranscriptApi_get_transcript.
  rewrite Hlist. unfold lift at 1. now rewrite Hjoin.
Qed.

(** ** The calls a tool issues *)

Lemma run_tool_api_failure (w : World) (r : tool_request) (s : trace) (e : exn) :
  reaches_api w r ->
  snd (_make_api_request w (fst (api_request r)) (snd (api_request r)) []) = inl e ->
  snd (run_tool w r s) = inl (ValueError (lit "API Error: " ++ str_exn w e)).
Proof.
  intros Hready H.
  destruct r as [request|request|request|request|request];
    cbn [run_tool api_request fst snd] in *;
    try (unfold youtube_search_videos, youtube_get_video_details,
           youtube_get_comments, youtube_list_channel_videos;
         apply guarded_get_failure; exact H).
  destruct Hready as (text & Hfetched).
  unfold bind at 1. rewrite (transcript_after_fetch w request text s Hfetched).
  unfold bind at 1, try_except, bind.
  now rewrite make_api_request_split, H.
Qed.

(** X5. A tool body that gets as far as its request to the Data API has
    issued exactly one GET, the one for its own endpoint with the
    credential attached, whatever the remote answers and whether the tool
    then returns or fails: nothing is retried and no second page is
    fetched.  The transcript tool has called the transcript collaborator
    once before; the other tools never call it. *)
Theorem one_get_per_invocation (w : World) (r : tool_request) (s : trace) :
  reaches_api w r ->
  fst (run_tool w r s) = s ++ calls_until_api w r.
Proof.
  intros Hready.
  destruct r as [request|request|request|request|request];
    cbn [run_tool calls_until_api];
    try (unfold youtube_search_videos, youtube_get_video_details,
           youtube_get_comments, youtube_list_channel_videos;
         apply guarded_get_trace; prove_silent).
  destruct Hready as (text & Hfetched).
  rewrite fst_bind_silent by (intro; apply silent_ret).
  rewrite (transcript_after_fetch w request text s Hfetched).
  rewrite fst_bind_silent by (intros [t d]; apply silent_lift).
  rewrite fst_try_except, fst_bind_silent by prove_silent.
  rewrite make_api_request_run. cbn [fst]. now rewrite <- app_assoc.
Qed.



(** X8. When the remote answers with a status other than 200, a tool that
    had reached its request fails with the message
    ["API Error: API request failed: <status> - <body text>"], the status in
    decimal and the body as received. *)
Theorem refusal_message
    (w : World) (r : tool_request) (s : trace) (response : Response) :
  reaches_api w r ->
  api_answer w r = inr response ->
  status_code response <> 200%Z ->
  snd (run_tool w r s)
    = inl (ValueError (lit "API Error: API request failed: "
                         ++ str_of_int (status_code response)
                         ++ lit " - " ++ text response)).
Proof.
  intros Hready Hans Hne.
  rewrite (run_tool_api_failure w r s
             (ValueError (lit "API request failed: "
                            ++ str_of_int (status_code response)
                            ++ lit " - " ++ text response)) Hready).
  - reflexivity.
  - rewrite make_api_request_run. cbn [snd]. unfold api_answer in Hans.
    rewrite Hans. apply Z.eqb_neq in Hne. now rewrite Hne.
Qed.

(** * Further properties of the listing tools *)

Lemma collect_returns {A B} (f : A -> exn + B) (l : list A) (out : list B) :
  collect f l = inr out <-> Forall2 (fun x y => f x = inr y) l out.
Proof.
  revert out. induction l as [|x rest IH]; intros out; cbn [collect]; split.
  - intros H. inversion H. constructor.
  - intros H. inversion H. reflexivity.
  - unfold ebind. destruct (f x) as [e|y] eqn:Ex; [discriminate|].
    destruct (collect f rest) as [e|ys] eqn:Er; [discriminate|].
    intros H. inversion H; subst. constructor; [exact Ex|]. now apply IH.
  - intros H. inversion H as [|x' y rest' ys Hy Hrest]; subst.
    rewrite Hy. cbn [ebind]. apply IH in Hrest. now rewrite Hrest.
Qed.

Lemma collect_fails {A B} (f : A -> exn + B) (l : list A) (x : A) (e : exn) :
  In x l -> f x = inl e -> exists cause, collect f l = inl cause.
Proof.
  intros Hin Hx. induction l as [|y rest IH]; [destruct Hin|].
  cbn [collect]. unfold ebind. destruct (f y) as [e'|b] eqn:Ey; [eauto|].
  destruct Hin as [->|Hin]; [congruence|].
  destruct (IH Hin) as (cause & ->). eauto.
Qed.

Lemma search_videos_loop_step (item : pyval) (rest : list pyval) (videos : list dict) :
  search_videos_loop (item :: rest) videos =
    match video_of item with
    | inl e => inl e
    | inr entry => search_videos_loop rest (videos ++ [entry])
    end.
Proof.
  cbn [search_videos_loop]. unfold video_of, ebind.
  repeat match goal with
  | |- match ?x with _ => _ end = _ => destruct x; [reflexivity|]
  end.
  reflexivity.
Qed.

Lemma search_videos_loop_collect (items : list pyval) (videos : list dict) :
  search_videos_loop items videos =
    (entries <~ collect video_of items ;; inr (videos ++ entries)).
Proof.
  revert videos. induction items as [|item rest IH]; intros videos.
  - cbn. now rewrite app_nil_r.
  - rewrite search_videos_loop_step. cbn [collect]. unfold ebind at 1 2.
    destruct (video_of item) as [e|entry]; [reflexivity|].
    rewrite IH. unfold ebind.
    destruct (collect video_of rest); [reflexivity|].
    now rewrite <- app_assoc.
Qed.

Lemma comments_loop_step (item : pyval) (rest comments : list pyval) :
  comments_loop (item :: rest) comments =
    match comment_of item with
    | inl e => inl e
    | inr text => comments_loop rest (comments ++ [text])
    end.
Proof.
  cbn [comments_loop]. unfold comment_of, ebind.
  repeat match goal with
  | |- match ?x with _ => _ end = _ => destruct x; [reflexivity|]
  end.
  reflexivity.
Qed.

Lemma comments_loop_collect (items comments : list pyval) :
  comments_loop items comments =
    (texts <~ collect comment_of items ;; inr (comments ++ texts)).
Proof.
  revert comments. induction items as [|item rest IH]; intros comments.
  - cbn. now rewrite app_nil_r.
  - rewrite comments_loop_step. cbn [collect]. unfold ebind at 1 2.
    destruct (comment_of item) as [e|text]; [reflexivity|].
    rewrite IH. unfold ebind.
    destruct (collect comment_of rest); [reflexivity|].
    now rewrite <- app_assoc.
Qed.

(** The search tool, once the items of the answer are known. *)
Lemma search_videos_outcome
    (w : World) (request : SearchRequest.t) (s : trace)
    (data found : pyval) (items : list pyval) :
  answered w (Req_youtube_search_videos request) data ->
  dict_get data (lit "items") (PyList []) = inr found ->
  iterate found = inr items ->
  snd (youtube_search_videos w request s) =
    match collect video_of items with
    | inr entries => inr {| SearchResponse.videos := entries |}
    | inl e => inl (ValueError (lit "API Error: " ++ str_exn w e))
    end.
Proof.
  intros Hans Hfound Hiter. expose_answer Hans.
  unfold youtube_search_videos, try_except, bind.
  rewrite (make_api_request_answered w _ _ s response data Hget H200 Hjson).
  unfold lift. rewrite Hfound. cbn [ebind]. rewrite Hiter.
  rewrite search_videos_loop_collect. unfold ebind, ret.
  destruct (collect video_of items); reflexivity.
Qed.

(** X9. Once the remote has answered 200 with the items [items], the search
    tool and the channel-listing tool return the sequence [entries] exactly
    when [entries] holds, item by item and in the order of the answer, the
    dictionary made of the item's [id.videoId], [snippet.title] and
    [snippet.description]: nothing is reordered, dropped or added. *)
Theorem search_projects_items_in_order
    (w : World) (tool : World -> SearchRequest.t -> M SearchResponse.t)
    (request : SearchRequest.t) (s : trace)
    (data found : pyval) (items : list pyval) (entries : list dict) :
  tool = youtube_search_videos \/ tool = youtube_list_channel_videos ->
  answered w (Req_youtube_search_videos request) data ->
  dict_get data (lit "items") (PyList []) = inr found ->
  iterate found = inr items ->
  snd (tool w request s) = inr {| SearchResponse.videos := entries |}
  <-> Forall2 (fun item entry => video_of item = inr entry) items entries.
Proof.
  intros Htool Hans Hfound Hiter.
  assert (E : snd (tool w request s) = snd (youtube_search_videos w request s)).
  { destruct Htool as [->| ->]; [reflexivity | now rewrite list_channel_videos_eq]. }
  rewrite E, (search_videos_outcome w request s data found items Hans Hfound Hiter).
  rewrite <- collect_returns.
  destruct (collect video_of items) as [e|vs]; split; intros H;
    try discriminate; now inversion H.
Qed.

(** X10. One item of the answer that lacks a field the loop reads makes the
    whole search (or channel listing) fail with a wrapped error: the entries
    built from the items before it are not returned. *)
Theorem malformed_item_fails_search
    (w : World) (tool : World -> SearchRequest.t -> M SearchResponse.t)
    (request : SearchRequest.t) (s : trace)
    (data found : pyval) (items : list pyval) (item : pyval) (e : exn) :
  tool = youtube_search_videos \/ tool = youtube_list_channel_videos ->
  answered w (Req_youtube_search_videos request) data ->
  dict_get data (lit "items") (PyList []) = inr found ->
  iterate found = inr items ->
  In item items -> video_of item = inl e ->
  exists cause,
    snd (tool w request s) = inl (ValueError (lit "API Error: " ++ str_exn w cause)).
Proof.
  intros Htool Hans Hfound Hiter Hin Hbad.
  assert (E : snd (tool w request s) = snd (youtube_search_videos w request s)).
  { destruct Htool as [->| ->]; [reflexivity | now rewrite list_channel_videos_eq]. }
  rewrite E, (search_videos_outcome w request s data found items Hans Hfound Hiter).
  destruct (collect_fails video_of items item e Hin Hbad) as (cause & ->).
  now exists cause.
Qed.

Lemma check_items_strings (i : nat) (texts : list pyval) (out : list pystr) :
  CommentsResponse.check_items i texts = ([], out) <-> texts = map PyStr out.
Proof.
  revert i out. induction texts as [|v rest IH]; intros i out; cbn.
  - split; intros H.
    + inversion H. reflexivity.
    + destruct out; [reflexivity | discriminate].
  - destruct (CommentsResponse.check_items (S i) rest) as [es ss] eqn:E.
    destruct v; cbn;
      try (split; intros H; [discriminate | destruct out; discriminate]).
    split; intros H.
    + inversion H; subst. cbn. f_equal. apply (IH (S i)). exact E.
    + destruct out as [|t out]; [discriminate|]. cbn in H. inversion H; subst.
      assert (E' : CommentsResponse.check_items (S i) (map PyStr out) = ([], out))
        by now apply IH.
      rewrite E' in E. now inversion E.
Qed.

Lemma comments_new_returns (texts : list pyval) (out : list pystr) :
  CommentsResponse.new texts = inr {| CommentsResponse.comments := out |}
  <-> texts = map PyStr out.
Proof.
  rewrite <- (check_items_strings 0). unfold CommentsResponse.new.
  destruct (CommentsResponse.check_items 0 texts) as [[|e es] ss]; split; intros H;
    try discriminate; now inversion H.
Qed.

Lemma Forall2_map_r {A B C} (P : A -> C -> Prop) (f : B -> C)
    (l : list A) (l' : list B) :
  Forall2 P l (map f l') <-> Forall2 (fun x y => P x (f y)) l l'.
Proof.
  revert l. induction l' as [|y l' IH]; intros l; cbn; split; intros H;
    inversion H; subst; constructor; try assumption; now apply IH.
Qed.

(** X11. Once the remote has answered 200 with the threads [items], the
    comments tool returns the sequence [texts] exactly when [texts] holds,
    thread by thread and in the order of the answer, the string found at
    [snippet.topLevelComment.snippet.textDisplay]: replies are not read and
    no comment is filtered out or cut off at the limit. *)
Theorem comments_are_top_level_texts_in_order
    (w : World) (request : CommentsRequest.t) (s : trace)
    (data found : pyval) (items : list pyval) (texts : list pystr) :
  answered w (Req_youtube_get_comments request) data ->
  dict_get data (lit "items") (PyList []) = inr found ->
  iterate found = inr items ->
  snd (youtube_get_comments w request s)
    = inr {| CommentsResponse.comments := texts |}
  <-> Forall2 (fun item text => comment_of item = inr (PyStr text)) items texts.
Proof.
  intros Hans Hfound Hiter. expose_answer Hans.
  unfold youtube_get_comments, try_except, bind.
  rewrite (make_api_request_answered w _ _ s response data Hget H200 Hjson).
  unfold lift. rewrite Hfound. cbn [ebind]. rewrite Hiter.
  rewrite comments_loop_collect. unfold ebind.
  rewrite <- (Forall2_map_r (fun item c => comment_of item = inr c) PyStr).
  rewrite <- collect_returns.
  destruct (collect comment_of items) as [e|cs]; cbn.
  - split; discriminate.
  - destruct (CommentsResponse.new cs) as [e|out] eqn:E; cbn.
    + split; [discriminate|]. intros H. inversion H; subst.
      rewrite (proj2 (comments_new_returns _ texts) eq_refl) in E. discriminate.
    + destruct out as [ss]. apply comments_new_returns in E. subst cs. split.
      * intros H. now inversion H.
      * intros H. inversion H as [Hmap].
        assert (Heq : ss = texts).
        { clear -Hmap. revert texts Hmap.
          induction ss as [|x ss IH]; intros [|t texts] H; try discriminate;
            [reflexivity|]. cbn in H. inversion H. f_equal. now apply IH. }
        now subst.
Qed.

(** X12. A present key gives the default of [.get] no say: when the answer
    is a JSON object whose [items] key holds a value that cannot be iterated
    ([null], a number, a boolean), the search, channel-listing and comments
    tools fail with the wrapped error of the iteration instead of returning
    an empty sequence. *)
Theorem uniterable_items_fail_listing
    (w : World) (r : tool_request) (s : trace)
    (entries : dict) (found : pyval) (e : exn) :
  lists_items r = true ->
  answered w r (PyDict entries) ->
  dict_lookup (lit "items") entries = Some found ->
  iterate found = inl e ->
  snd (run_tool w r s) = inl (ValueError (lit "API Error: " ++ str_exn w e)).
Proof.
  intros Hkind Hans Hfound Hiter.
  destruct r as [request|request|request|request|request];
    try discriminate Hkind; expose_answer Hans; cbn [run_tool].
  - unfold youtube_search_videos, try_except, bind.
    rewrite (make_api_request_answered w _ _ s response _ Hget H200 Hjson).
    unfold lift, dict_get. rewrite Hfound. cbn [ebind]. now rewrite Hiter.
  - unfold youtube_get_comments, try_except, bind.
    rewrite (make_api_request_answered w _ _ s response _ Hget H200 Hjson).
    unfold lift, dict_get. rewrite Hfound. cbn [ebind]. now rewrite Hiter.
  - unfold youtube_list_channel_videos, try_except, bind.
    rewrite (make_api_request_answered w _ _ s response _ Hget H200 Hjson).
    unfold lift, dict_get. rewrite Hfound. cbn [ebind]. now rewrite Hiter.
Qed.

(** * Further properties of the look-up tools *)

(** X13. Any falsy [items] counts as not found: when the 200 answer holds
    under [items] an empty list, [null], zero, [false], an empty string or
    an empty object, the video-details tool, and the transcript tool once
    its transcript step has gone through, fail with
    ["API Error: Video not found"]. *)
Theorem falsy_items_video_not_found
    (w : World) (r : tool_request) (s : trace) (data items : pyval) :
  looks_up_video r = true ->
  reaches_api w r ->
  answered w r data ->
  getitem_str data (lit "items") = inr items ->
  truthy items = false ->
  snd (run_tool w r s) = inl (ValueError (lit "API Error: Video not found")).
Proof.
  intros Hkind Hready Hans Hitems Hfalsy.
  destruct r as [request|request|request|request|request];
    try discriminate Hkind; expose_answer Hans; cbn [run_tool].
  - destruct Hready as (text & Hfetched).
    unfold bind at 1. rewrite (transcript_after_fetch w request text s Hfetched).
    unfold bind at 1, try_except, bind.
    rewrite (make_api_request_answered w _ _ _ response _ Hget H200 Hjson).
    unfold lift. now rewrite Hitems, Hfalsy.
  - unfold youtube_get_video_details, try_except, bind.
    rewrite (make_api_request_answered w _ _ s response _ Hget H200 Hjson).
    unfold lift. now rewrite Hitems, Hfalsy.
Qed.

(** X14. The video-details tool returns when the 200 answer holds a
    non-empty list under [items] whose first element has a [snippet] with
    strings under [title], [description] and [publishedAt]: the result
    carries the identifier of the request and those three strings, and the
    elements after the first are not looked at. *)
Theorem details_returns_first_item
    (w : World) (request : VideoDetailsRequest.t) (s : trace)
    (data first snippet : pyval) (others : list pyval)
    (title description published_at : pystr) :
  answered w (Req_youtube_get_video_details request) data ->
  getitem_str data (lit "items") = inr (PyList (first :: others)) ->
  getitem_str first (lit "snippet") = inr snippet ->
  getitem_str snippet (lit "title") = inr (PyStr title) ->
  getitem_str snippet (lit "description") = inr (PyStr description) ->
  getitem_str snippet (lit "publishedAt") = inr (PyStr published_at) ->
  youtube_get_video_details w request s
    = (s ++ [outgoing w (Req_youtube_get_video_details request)],
       inr {| VideoDetailsResponse.video_id := VideoDetailsRequest.video_id request;
              VideoDetailsResponse.title := title;
              VideoDetailsResponse.description := description;
              VideoDetailsResponse.published_at := published_at |}).
Proof.
  intros Hans Hitems Hsnippet Htitle Hdescription Hpublished. expose_answer Hans.
  unfold youtube_get_video_details, try_except, bind.
  rewrite (make_api_request_answered w _ _ s response data Hget H200 Hjson).
  unfold lift. rewrite Hitems. cbn [truthy negb getitem_int nth_error].
  now rewrite Hsnippet, Htitle, Hdescription, Hpublished.
Qed.

(** X15. The transcript tool returns when its transcript step has gone
    through with [text] and the 200 answer holds a non-empty list under
    [items] whose first element has a [snippet] whose [title] and
    [description] are each a string or [null]: the result carries [text]
    and the two fields, absent where the answer had [null].  Two calls have
    been issued, the collaborator first. *)
Theorem transcript_returns_text_and_metadata
    (w : World) (request : TranscriptRequest.t) (s : trace)
    (text : pystr) (data first snippet title description : pyval)
    (others : list pyval) (video_title video_description : option pystr) :
  transcript_fetched w (TranscriptRequest.video_id request) text ->
  answered w (Req_get_youtube_transcript request) data ->
  getitem_str data (lit "items") = inr (PyList (first :: others)) ->
  getitem_str first (lit "snippet") = inr snippet ->
  getitem_str snippet (lit "title") = inr title ->
  getitem_str snippet (lit "description") = inr description ->
  optional_text title video_title ->
  optional_text description video_description ->
  get_youtube_transcript w request s
    = (s ++ [TranscriptFetch (TranscriptRequest.video_id request);
             outgoing w (Req_get_youtube_transcript request)],
       inr {| TranscriptResponse.transcript := text;
              TranscriptResponse.video_title := video_title;
              TranscriptResponse.video_description := video_description |}).
Proof.
  intros Hfetched Hans Hitems Hsnippet Htitle Hdescription Hot Hod.
  expose_answer Hans.
  rewrite (transcript_after_fetch w request text s Hfetched).
  unfold bind at 1, try_except, bind.
  rewrite (make_api_request_answered w _ _ _ response data Hget H200 Hjson).
  unfold lift. rewrite Hitems. cbn [truthy negb getitem_int nth_error].
  rewrite Hsnippet, Htitle, Hdescription. unfold ret.
  rewrite <- app_assoc. cbn [app]. unfold outgoing. cbn [api_request fst snd].
  f_equal. unfold TranscriptResponse.new.
  destruct title; try contradiction; destruct description; try contradiction;
    cbn in Hot, Hod |- *; now subst.
Qed.

(** X17. The video-details tool asks for strings: when the [title] of the
    first item's snippet is not a string ([null] included), the tool fails
    with pydantic's error for [VideoDetailsResponse] behind
    ["API Error: "], the record being built inside the [try] block. *)
Theorem details_rejects_non_string_title
    (w : World) (request : VideoDetailsRequest.t) (s : trace)
    (data first snippet title description published_at : pyval)
    (others : list pyval) :
  answered w (Req_youtube_get_video_details request) data ->
  getitem_str data (lit "items") = inr (PyList (first :: others)) ->
  getitem_str first (lit "snippet") = inr snippet ->
  getitem_str snippet (lit "title") = inr title ->
  getitem_str snippet (lit "description") = inr description ->
  getitem_str snippet (lit "publishedAt") = inr published_at ->
  type_of title <> TStr ->
  exists errors,
    snd (youtube_get_video_details w request s)
      = inl (ValueError
               (lit "API Error: "
                  ++ str_exn w (ValidationError "VideoDetailsResponse" errors)))
    /\ In ("title"%string, None, WrongType TStr (type_of title)) errors.
Proof.
  intros Hans Hitems Hsnippet Htitle Hdescription Hpublished Hty.
  expose_answer Hans.
  unfold youtube_get_video_details, try_except, bind.
  rewrite (make_api_request_answered w _ _ s response data Hget H200 Hjson).
  unfold lift. rewrite Hitems. cbn [truthy negb getitem_int nth_error].
  rewrite Hsnippet, Htitle, Hdescription, Hpublished.
  unfold VideoDetailsResponse.new.
  destruct title; try (now contradiction Hty);
    cbn [check_str type_of errors_of snd];
    (eexists; split; [reflexivity | left; reflexivity]).
Qed.

(** X18. The transcript tool builds its result after its [try] blocks: when
    the [title] of the first item's snippet is neither a string nor [null],
    the tool fails with pydantic's error for [TranscriptResponse] as it is,
    which is not in the ["API Error: "] shape. *)
Theorem transcript_record_error_is_not_wrapped
    (w : World) (request : TranscriptRequest.t) (s : trace)
    (text : pystr) (data first snippet title description : pyval)
    (others : list pyval) :
  transcript_fetched w (TranscriptRequest.video_id request) text ->
  answered w (Req_get_youtube_transcript request) data ->
  getitem_str data (lit "items") = inr (PyList (first :: others)) ->
  getitem_str first (lit "snippet") = inr snippet ->
  getitem_str snippet (lit "title") = inr title ->
  getitem_str snippet (lit "description") = inr description ->
  type_of title <> TStr -> type_of title <> TNone ->
  exists errors,
    snd (get_youtube_transcript w request s)
      = inl (ValidationError "TranscriptResponse" errors)
    /\ In ("video_title"%string, None, WrongType TStr (type_of title)) errors
    /\ ~ wrapped w (ValidationError "TranscriptResponse" errors).
Proof.
  intros Hfetched Hans Hitems Hsnippet Htitle Hdescription Hstr Hnone.
  expose_answer Hans.
  rewrite (transcript_after_fetch w request text s Hfetched).
  unfold bind at 1, try_except, bind.
  rewrite (make_api_request_answered w _ _ _ response data Hget H200 Hjson).
  unfold lift. rewrite Hitems. cbn [truthy negb getitem_int nth_error].
  rewrite Hsnippet, Htitle, Hdescription. unfold ret. cbn [snd].
  unfold TranscriptResponse.new.
  destruct title; try (now contradiction Hstr); try (now contradiction Hnone);
    cbn [check_optional_str type_of errors_of];
    (eexists; split; [reflexivity|]; split;
       [left; reflexivity | intros (cause & H); discriminate H]).
Qed.

(** * Further properties of the start-up *)

(** X16. The server starts exactly when [YOUTUBE_API_KEY] is set to a
    non-empty string, and then registers its five tools; a variable set to
    the empty string is treated like a missing one and gives the same
    error. *)
Theorem startup_needs_nonempty_credential (w : World) :
  ((exists k, getenv w (lit "YOUTUBE_API_KEY") = Some k /\ k <> [])
   /\ startup w = Serving registered_tools)
  \/ ((getenv w (lit "YOUTUBE_API_KEY") = None
       \/ getenv w (lit "YOUTUBE_API_KEY") = Some [])
      /\ startup w
           = StartupFailed
               (ValueError (Config.error_msg [lit "YOUTUBE_API_KEY is required"]))).
Proof.
  unfold startup, Config.validate, Config.YOUTUBE_API_KEY.
  destruct (getenv w (lit "YOUTUBE_API_KEY")) as [[|c k]|].
  - right. split; [now right | reflexivity].
  - left. split; [|reflexivity]. exists (c :: k). split; [reflexivity | discriminate].
  - right. split; [now left | reflexivity].
Qed.

(** * The further properties, run on sample answers *)

Ltac sample_answer := eexists; repeat split.

(** X2 on a query with blanks around it and no limit given. *)
Lemma validated_request_meets_data_model_witness :
  build_request (Args_youtube_search_videos (lit "  cats ") None)
    = inr (Req_youtube_search_videos
             {| SearchRequest.query := lit "cats"; SearchRequest.max_results := 5 |})
  /\ request_ok (Req_youtube_search_videos
                   {| SearchRequest.query := lit "cats";
                      SearchRequest.max_results := 5 |}).
Proof.
  split; [reflexivity|].
  exact (validated_request_meets_data_model
           (Args_youtube_search_videos (lit "  cats ") None) _ eq_refl).
Defined.

(** X3 on the same arguments. *)
Lemma validation_is_idempotent_witness :
  build_request (Args_youtube_search_videos (lit "  cats ") None)
    = inr (Req_youtube_search_videos
             {| SearchRequest.query := lit "cats"; SearchRequest.max_results := 5 |})
  /\ build_request (Args_youtube_search_videos (lit "cats") (Some 5%Z))
    = inr (Req_youtube_search_videos
             {| SearchRequest.query := lit "cats"; SearchRequest.max_results := 5 |}).
Proof.
  split; [reflexivity|].
  exact (validation_is_idempotent
           (Args_youtube_search_videos (lit "  cats ") None) _ eq_refl).
Defined.

(** X5 on the transcript scenario: the collaborator, then one GET. *)
Lemma one_get_per_invocation_witness :
  reaches_api rick_world
    (Req_get_youtube_transcript {| TranscriptRequest.video_id := rick_id |})
  /\ fst (run_tool rick_world
            (Req_get_youtube_transcript {| TranscriptRequest.video_id := rick_id |}) [])
     = [TranscriptFetch rick_id;
        outgoing rick_world
          (Req_get_youtube_transcript {| TranscriptRequest.video_id := rick_id |})].
Proof.
  assert (H : reaches_api rick_world
                (Req_get_youtube_transcript {| TranscriptRequest.video_id := rick_id |})).
  { exists (lit "Never gonna give"), (PyList rick_fragments). split; reflexivity. }
  split; [exact H|].
  exact (one_get_per_invocation rick_world _ [] H).
Defined.



(** X8 on a 403. *)
Lemma refusal_message_witness :
  api_answer forbidden_world (Req_youtube_get_comments rick_comments_request)
    = inr forbidden
  /\ snd (run_tool forbidden_world (Req_youtube_get_comments rick_comments_request) [])
     = inl (ValueError (lit "API Error: API request failed: 403 - quotaExceeded")).
Proof.
  split; [reflexivity|].
  apply (refusal_message forbidden_world
           (Req_youtube_get_comments rick_comments_request) [] forbidden I eq_refl).
  discriminate.
Defined.

(** X9 on the five items of the search scenario. *)
Lemma search_projects_items_in_order_witness :
  snd (youtube_list_channel_videos five_cats_world cats_request [])
    = inr five_cats_videos
  /\ Forall2 (fun item entry => video_of item = inr entry)
       five_cats (SearchResponse.videos five_cats_videos).
Proof.
  split; [reflexivity|].
  apply (proj1 (search_projects_items_in_order five_cats_world
                  youtube_list_channel_videos cats_request []
                  five_cats_data (PyList five_cats) five_cats
                  (SearchResponse.videos five_cats_videos)
                  (or_intror eq_refl)
                  ltac:(sample_answer) eq_refl eq_refl)).
  reflexivity.
Defined.

(** X10 on an answer whose second item has no snippet. *)
Lemma malformed_item_fails_search_witness :
  In broken_item [search_item "cat00000001" "one"; broken_item]
  /\ video_of broken_item = inl (KeyError (PyStr (lit "snippet")))
  /\ exists cause,
       snd (youtube_search_videos broken_cats_world cats_request [])
         = inl (ValueError (lit "API Error: " ++ str_exn broken_cats_world cause)).
Proof.
  assert (Hin : In broken_item [search_item "cat00000001" "one"; broken_item])
    by (right; left; reflexivity).
  split; [exact Hin|]. split; [reflexivity|].
  exact (malformed_item_fails_search broken_cats_world youtube_search_videos
           cats_request [] broken_cats_data
           (PyList [search_item "cat00000001" "one"; broken_item])
           [search_item "cat00000001" "one"; broken_item] broken_item
           (KeyError (PyStr (lit "snippet")))
           (or_introl eq_refl) ltac:(sample_answer) eq_refl eq_refl Hin eq_refl).
Defined.

(** X11 on two threads, with a limit of one. *)
Lemma comments_are_top_level_texts_in_order_witness :
  Forall2 (fun item text => comment_of item = inr (PyStr text))
    two_threads [lit "first!"; lit "great song"]
  /\ snd (youtube_get_comments two_threads_world rick_comments_request [])
     = inr {| CommentsResponse.comments := [lit "first!"; lit "great song"] |}.
Proof.
  assert (H : Forall2 (fun item text => comment_of item = inr (PyStr text))
                two_threads [lit "first!"; lit "great song"])
    by (repeat constructor).
  split; [exact H|].
  exact (proj2 (comments_are_top_level_texts_in_order two_threads_world
                  rick_comments_request [] two_threads_data (PyList two_threads)
                  two_threads [lit "first!"; lit "great song"]
                  ltac:(sample_answer) eq_refl eq_refl) H).
Defined.

(** X12 on an answer whose items is null. *)
Lemma uniterable_items_fail_listing_witness :
  iterate PyNone = inl (NotIterable TNone)
  /\ snd (run_tool null_items_world (Req_youtube_search_videos cats_request) [])
     = inl (ValueError (lit "API Error: 'NoneType' object is not iterable")).
Proof.
  split; [reflexivity|].
  exact (uniterable_items_fail_listing null_items_world
           (Req_youtube_search_videos cats_request) [] null_items_entries PyNone
           (NotIterable TNone) eq_refl ltac:(sample_answer) eq_refl eq_refl).
Defined.

(** X13 on the same answer, for the details tool. *)
Lemma falsy_items_video_not_found_witness :
  truthy PyNone = false
  /\ snd (run_tool null_items_world
            (Req_youtube_get_video_details
               {| VideoDetailsRequest.video_id := rick_id |}) [])
     = inl (ValueError (lit "API Error: Video not found")).
Proof.
  split; [reflexivity|].
  exact (falsy_items_video_not_found null_items_world
           (Req_youtube_get_video_details {| VideoDetailsRequest.video_id := rick_id |})
           [] (PyDict null_items_entries) PyNone
           eq_refl I ltac:(sample_answer) eq_refl eq_refl).
Defined.

(** X14 on the details scenario. *)
Lemma details_returns_first_item_witness :
  getitem_str rick_data (lit "items") = inr (PyList [rick_item])
  /\ snd (youtube_get_video_details rick_world
            {| VideoDetailsRequest.video_id := rick_id |} []) = inr rick_details.
Proof.
  split; [reflexivity|].
  rewrite (details_returns_first_item rick_world
             {| VideoDetailsRequest.video_id := rick_id |} []
             rick_data rick_item rick_snippet []
             (lit "Rick Astley - Never Gonna Give You Up")
             (lit "The official video") (lit "2009-10-25T06:57:33Z")
             ltac:(sample_answer) eq_refl eq_refl eq_refl eq_refl eq_refl).
  reflexivity.
Defined.

(** X15 on the transcript scenario. *)
Lemma transcript_returns_text_and_metadata_witness :
  transcript_fetched rick_world rick_id (lit "Never gonna give")
  /\ snd (get_youtube_transcript rick_world
            {| TranscriptRequest.video_id := rick_id |} []) = inr rick_transcript.
Proof.
  assert (H : transcript_fetched rick_world rick_id (lit "Never gonna give")).
  { exists (PyList rick_fragments). split; reflexivity. }
  split; [exact H|].
  rewrite (transcript_returns_text_and_metadata rick_world
             {| TranscriptRequest.video_id := rick_id |} []
             (lit "Never gonna give") rick_data rick_item rick_snippet
             (PyStr (lit "Rick Astley - Never Gonna Give You Up"))
             (PyStr (lit "The official video")) []
             (Some (lit "Rick Astley - Never Gonna Give You Up"))
             (Some (lit "The official video"))
             H ltac:(sample_answer) eq_refl eq_refl eq_refl eq_refl eq_refl eq_refl).
  reflexivity.
Defined.

(** X17 on an answer whose title is null. *)
Lemma details_rejects_non_string_title_witness :
  type_of PyNone <> TStr
  /\ exists errors,
       snd (youtube_get_video_details null_title_world
              {| VideoDetailsRequest.video_id := rick_id |} [])
         = inl (ValueError
                  (lit "API Error: "
                     ++ str_exn null_title_world
                          (ValidationError "VideoDetailsResponse" errors)))
       /\ In ("title"%string, None, WrongType TStr TNone) errors.
Proof.
  assert (H : type_of PyNone <> TStr) by discriminate.
  split; [exact H|].
  exact (details_rejects_non_string_title null_title_world
           {| VideoDetailsRequest.video_id := rick_id |} []
           null_title_data null_title_item null_title_snippet PyNone
           (PyStr (lit "The official video")) (PyStr (lit "2009-10-25T06:57:33Z")) []
           ltac:(sample_answer) eq_refl eq_refl eq_refl eq_refl eq_refl H).
Defined.

(** X18 on an answer whose title is a number. *)
Lemma transcript_record_error_is_not_wrapped_witness :
  transcript_fetched numeric_title_world rick_id (lit "Never gonna give")
  /\ exists errors,
       snd (get_youtube_transcript numeric_title_world
              {| TranscriptRequest.video_id := rick_id |} [])
         = inl (ValidationError "TranscriptResponse" errors)
       /\ In ("video_title"%string, None, WrongType TStr TInt) errors
       /\ ~ wrapped numeric_title_world (ValidationError "TranscriptResponse" errors).
Proof.
  assert (H : transcript_fetched numeric_title_world rick_id (lit "Never gonna give")).
  { exists (PyList rick_fragments). split; reflexivity. }
  split; [exact H|].
  refine (transcript_record_error_is_not_wrapped numeric_title_world
            {| TranscriptRequest.video_id := rick_id |} []
            (lit "Never gonna give") _
            (PyDict [(lit "snippet", numeric_title_snippet)]) numeric_title_snippet
            (PyInt 7) PyNone []
            H ltac:(sample_answer) eq_refl eq_refl eq_refl eq_refl _ _);
    discriminate.
Defined.
